(** * The sign-up, verification and login flow of the authentication app

    A shallow embedding of [authentication/models.py], [authentication/forms.py]
    and [authentication/views.py], with the properties of the verification-code
    life cycle proved about it.

    Conventions of the embedding.
    - A Python [str] is a [string]; its characters are the code points
      U+0000..U+00FF.
    - A Python [int] (primary keys) and a [datetime] (microseconds since the
      epoch) are [Z].
    - A database table is a [gmap] from primary key to row.
    - [request.session] is a [gmap] from key to value.
    - A view is a computation in the monad [M]: it threads the database, the
      session and the flashed messages, and it is [None] where Python would
      leave the view with an unhandled exception.
    - What the process reads from outside (the wall clock, the random
      generator, the outcome of the mail transport, the checks of Django's own
      form classes, the credential check of the login form, the order in which
      the database returns rows of equal [created_at]) is gathered in [Env]. *)

From stdpp Require Import base option list strings gmap fin_maps relations.
From Stdlib Require Import ZArith Ascii String Lia.

Local Open Scope string_scope.
Local Open Scope Z_scope.

(** ** Python strings *)

Module Py.

(** [c in s] for a one-character [c]. *)
Fixpoint contains (c : ascii) (s : string) : bool :=
  match s with
  | EmptyString => false
  | String a s' => if Ascii.eqb a c then true else contains c s'
  end.

(** [s.split(sep)] for a one-character separator: the pieces between the
    occurrences of [sep], in order; never the empty list. *)
Fixpoint split (sep : ascii) (s : string) : list string :=
  match s with
  | EmptyString => [EmptyString]
  | String a s' =>
      if Ascii.eqb a sep then EmptyString :: split sep s'
      else match split sep s' with
           | piece :: rest => String a piece :: rest
           | [] => [String a EmptyString]
           end
  end.

(** [str.isspace] on one character (code points below U+0100). *)
Definition isspace (c : ascii) : bool :=
  let n := nat_of_ascii c in
  ((9 <=? n) && (n <=? 13) || (28 <=? n) && (n <=? 32)
   || (n =? 133) || (n =? 160))%nat.

Fixpoint lstrip (s : string) : string :=
  match s with
  | EmptyString => EmptyString
  | String a s' => if isspace a then lstrip s' else s
  end.

(** Drops the trailing white space: a character is kept when it is not
    white space or when something is kept after it. *)
Fixpoint rstrip (s : string) : string :=
  match s with
  | EmptyString => EmptyString
  | String a s' =>
      match rstrip s' with
      | EmptyString => if isspace a then EmptyString else String a EmptyString
      | rest => String a rest
      end
  end.

(** [s.strip()]. *)
Definition strip (s : string) : string := rstrip (lstrip s).

(** The characters '0'..'9'. *)
Definition is_decimal_digit (c : ascii) : bool :=
  let n := nat_of_ascii c in ((48 <=? n) && (n <=? 57))%nat.

(** The characters [str.isdigit] accepts: the decimal digits and the
    superscript digits U+00B2, U+00B3, U+00B9. *)
Definition isdigit_char (c : ascii) : bool :=
  let n := nat_of_ascii c in
  (is_decimal_digit c || (n =? 178) || (n =? 179) || (n =? 185))%nat.

Fixpoint all_chars (p : ascii → bool) (s : string) : bool :=
  match s with
  | EmptyString => true
  | String a s' => p a && all_chars p s'
  end.

(** [s.isdigit()]: at least one character, and all of them digits. *)
Definition isdigit (s : string) : bool :=
  match s with
  | EmptyString => false
  | _ => all_chars isdigit_char s
  end.

(** [string.digits]. *)
Definition digits : string := "0123456789".

(** [floor(x * n)] for the float [x = m / 2^53] with [0 <= m < 2^53] and the
    float [n] of a small natural number. The product of two floats is the
    exact product rounded to 53 significant bits, to the nearest and on a tie
    to the even one; [dropped] is the number of low bits of [m * n] that do
    not fit. *)
Definition floor_mul (m n : Z) : Z :=
  let p := m * n in
  let dropped := Z.log2 p + 1 - 53 in
  if bool_decide (dropped ≤ 0) then p `div` 2 ^ 53
  else
    let q := p `div` 2 ^ dropped in
    let rest := p `mod` 2 ^ dropped in
    let half := 2 ^ (dropped - 1) in
    let q' := if bool_decide (half < rest)
                 || bool_decide (rest = half) && Z.odd q
              then q + 1 else q in
    (q' * 2 ^ dropped) `div` 2 ^ 53.

(** [''.join(l)] for a list of one-character strings. *)
Definition join (l : list ascii) : string := string_of_list_ascii l.

End Py.

(** ** settings.py *)

Definition ALLOWED_EMAIL_DOMAIN : string := "sydney.edu.pl".

(** ** models.py: the rows *)

(** The columns of [User] the views read or write. [AbstractUser] has more
    (password hash, names, staff flags, dates); no view of the application
    touches them after creation. *)
Record User := mkUser {
  email : string;
  username : string;
  is_active : bool;
  is_verified : bool
}.

Record EmailVerification := mkEmailVerification {
  user : Z;
  code : string;
  created_at : Z;
  expires_at : Z;
  is_used : bool
}.

(** An [EmailVerification] object in memory: before its first [save] it has no
    primary key, no [created_at] and possibly no [expires_at]. *)
Record EmailVerificationObj := mkObj {
  pk : option Z;
  o_user : Z;
  o_code : string;
  o_created_at : option Z;
  o_expires_at : option Z;
  o_is_used : bool
}.

Definition from_db (i : Z) (r : EmailVerification) : EmailVerificationObj :=
  mkObj (Some i) (user r) (code r) (Some (created_at r)) (Some (expires_at r))
        (is_used r).

(** ** The state *)

Record Mail := mkMail {
  mail_to : string;
  mail_subject : string;
  mail_username : string;
  mail_code : string
}.

(** The database, the counters of the two [AUTOINCREMENT] keys, the mails
    handed to the transport, and how often the clock, the random generator and
    the transport were called. *)
Record World := mkWorld {
  users : gmap Z User;
  next_user_id : Z;
  verifications : gmap Z EmailVerification;
  next_verification_id : Z;
  outbox : list Mail;
  clock_reads : nat;
  rng_calls : nat;
  mail_calls : nat
}.

Inductive Level := success | error | info.

(** What a view works on: the database, [request.session] and the messages
    flashed during the request. *)
Record Ctx := mkCtx {
  world : World;
  session : gmap string Z;
  flashed : list (Level * string)
}.

Record SignUpPost := mkSignUpPost {
  post_email : string;
  post_username : string;
  post_password1 : string;
  post_password2 : string
}.

Record Env := mkEnv {
  (** the n-th reading of [timezone.now()] *)
  wall_clock : nat → Z;
  (** the n-th result of [random.random()], as the numerator of a fraction
      over 2^53 *)
  mersenne : nat → Z;
  (** whether the n-th call of [send_mail] delivers ([true]) or raises *)
  smtp : nat → bool;
  (** the checks [SignUpForm] inherits from [UserCreationForm] and from the
      field classes: syntax of the address, user name, password rules *)
  inherited_clean : SignUpPost → gmap Z User → bool;
  (** [CustomAuthenticationForm.is_valid()] and [get_user()] *)
  authenticate : string → string → gmap Z User → option (Z * User);
  (** which of two rows of equal [created_at] the database returns first *)
  tie : Z → Z → bool
}.

(** ** The monad of the views *)

Definition M (A : Type) : Type := Ctx → option (A * Ctx).

Global Instance M_ret : MRet M := λ A x c, Some (x, c).
Global Instance M_bind : MBind M := λ A B f m c,
  match m c with
  | Some (x, c') => f x c'
  | None => None
  end.

(** An unhandled exception. *)
Definition raise {A} : M A := λ _, None.

Definition get_world : M World := λ c, Some (world c, c).
Definition put_world (w : World) : M unit :=
  λ c, Some (tt, mkCtx w (session c) (flashed c)).
Definition get_session : M (gmap string Z) := λ c, Some (session c, c).
Definition put_session (s : gmap string Z) : M unit :=
  λ c, Some (tt, mkCtx (world c) s (flashed c)).

(** [messages.<level>(request, text)]. *)
Definition messages_add (l : Level) (text : string) : M unit :=
  λ c, Some (tt, mkCtx (world c) (session c) (flashed c ++ [(l, text)])).

Definition set_users (f : gmap Z User → gmap Z User) (w : World) : World :=
  mkWorld (f (users w)) (next_user_id w) (verifications w)
          (next_verification_id w) (outbox w) (clock_reads w) (rng_calls w)
          (mail_calls w).

Definition set_verifications
    (f : gmap Z EmailVerification → gmap Z EmailVerification) (w : World)
    : World :=
  mkWorld (users w) (next_user_id w) (f (verifications w))
          (next_verification_id w) (outbox w) (clock_reads w) (rng_calls w)
          (mail_calls w).

Section Model.

Context (E : Env).

(** [timezone.now()]. *)
Definition timezone_now : M Z :=
  w ← get_world;
  put_world (mkWorld (users w) (next_user_id w) (verifications w)
               (next_verification_id w) (outbox w) (S (clock_reads w))
               (rng_calls w) (mail_calls w));;
  mret (wall_clock E (clock_reads w)).

(** [random.random()]: a float k / 2^53 with 0 <= k < 2^53; the model
    carries k. *)
Definition random : M Z :=
  w ← get_world;
  put_world (mkWorld (users w) (next_user_id w) (verifications w)
               (next_verification_id w) (outbox w) (clock_reads w)
               (S (rng_calls w)) (mail_calls w));;
  mret (mersenne E (rng_calls w) `mod` 2 ^ 53).

(** [random.choices(population, k=k)]:
    [[population[floor(random() * n)] for _ in range(k)]], with [n] the
    length of the population as a float. An index out of range is Python's
    [IndexError]. *)
Fixpoint choices (population : string) (k : nat) : M (list ascii) :=
  match k with
  | O => mret []
  | S k' =>
      r ← random;
      match String.get
              (Z.to_nat (Py.floor_mul r (Z.of_nat (String.length population))))
              population with
      | None => raise
      | Some a => rest ← choices population k'; mret (a :: rest)
      end
  end.

(** [EmailVerification.generate_code]. *)
Definition generate_code : M string :=
  picked ← choices Py.digits 6;
  mret (Py.join picked).

(** *** models.py: the methods *)

(** [timedelta(minutes=30)]. *)
Definition thirty_minutes : Z := 30 * 60 * 1000000.

(** [EmailVerification.is_valid]:
    [not self.is_used and self.expires_at > timezone.now()]. The clock is
    read only when the record is unused; comparing [None] with a time is a
    [TypeError]. *)
Definition is_valid (o : EmailVerificationObj) : M bool :=
  if o_is_used o then mret false
  else
    now ← timezone_now;
    match o_expires_at o with
    | Some e => mret (bool_decide (now < e))
    | None => raise
    end.

(** [Model.save] of an [EmailVerification]: an object without primary key
    is inserted under the next key and [auto_now_add] stamps [created_at];
    an object with a primary key updates its row, and is inserted under that
    key (stamped likewise) when the row is gone. *)
Definition super_save (o : EmailVerificationObj) : M EmailVerificationObj :=
  match o_expires_at o with
  | None => raise
  | Some e =>
      match pk o with
      | None =>
          now ← timezone_now;
          w ← get_world;
          let i := next_verification_id w in
          put_world
            (mkWorld (users w) (next_user_id w)
               (<[i := mkEmailVerification (o_user o) (o_code o) now e
                         (o_is_used o)]> (verifications w))
               (i + 1) (outbox w) (clock_reads w) (rng_calls w)
               (mail_calls w));;
          mret (mkObj (Some i) (o_user o) (o_code o) (Some now) (Some e)
                  (o_is_used o))
      | Some i =>
          w ← get_world;
          match verifications w !! i, o_created_at o with
          | Some _, Some cr =>
              put_world
                (set_verifications
                   (<[i := mkEmailVerification (o_user o) (o_code o) cr e
                             (o_is_used o)]>) w);;
              mret o
          | Some _, None => raise
          | None, _ =>
              now ← timezone_now;
              w ← get_world;
              put_world
                (mkWorld (users w) (next_user_id w)
                   (<[i := mkEmailVerification (o_user o) (o_code o) now e
                             (o_is_used o)]> (verifications w))
                   (next_verification_id w `max` (i + 1)) (outbox w)
                   (clock_reads w) (rng_calls w) (mail_calls w));;
              mret (mkObj (Some i) (o_user o) (o_code o) (Some now) (Some e)
                      (o_is_used o))
          end
      end
  end.

(** [EmailVerification.save]. *)
Definition save (o : EmailVerificationObj) : M EmailVerificationObj :=
  c ← (if String.eqb (o_code o) "" then generate_code else mret (o_code o));
  e ← match o_expires_at o with
      | None => now ← timezone_now; mret (now + thirty_minutes)
      | Some e => mret e
      end;
  super_save (mkObj (pk o) (o_user o) c (o_created_at o) (Some e)
                (o_is_used o)).

(** [EmailVerification.objects.create(user=user)]: the field defaults, then
    [save]. *)
Definition objects_create (uid : Z) : M EmailVerificationObj :=
  save (mkObj None uid "" None None false).

(** The rows [filter(user=user, code=code, is_used=False)] keeps. *)
Definition matching (uid : Z) (c : string) (kv : Z * EmailVerification)
    : Prop :=
  user kv.2 = uid ∧ code kv.2 = c ∧ is_used kv.2 = false.

Global Instance matching_dec uid c kv : Decision (matching uid c kv).
Proof. unfold matching. apply _. Defined.

Definition objects_filter (uid : Z) (c : string)
    (t : gmap Z EmailVerification) : list (Z * EmailVerification) :=
  filter (matching uid c) (map_to_list t).

(** [Meta.ordering = ['-created_at']]: [x] is returned before [y]. *)
Definition before (x y : Z * EmailVerification) : bool :=
  bool_decide (created_at y.2 < created_at x.2)
  || bool_decide (created_at y.2 = created_at x.2) && tie E x.1 y.1.

(** [QuerySet.first()] under that ordering. *)
Fixpoint first (l : list (Z * EmailVerification))
    : option (Z * EmailVerification) :=
  match l with
  | [] => None
  | x :: l' =>
      match first l' with
      | None => Some x
      | Some y => if before y x then Some y else Some x
      end
  end.

(** [user.save()]: a new object is inserted under the next key, an object
    with a key replaces (or re-creates) its row. *)
Definition User_save (key : option Z) (u : User) : M Z :=
  w ← get_world;
  match key with
  | None =>
      let i := next_user_id w in
      put_world
        (mkWorld (<[i := u]> (users w)) (i + 1) (verifications w)
           (next_verification_id w) (outbox w) (clock_reads w)
           (rng_calls w) (mail_calls w));;
      mret i
  | Some i =>
      put_world
        (mkWorld (<[i := u]> (users w)) (next_user_id w `max` (i + 1))
           (verifications w) (next_verification_id w) (outbox w)
           (clock_reads w) (rng_calls w) (mail_calls w));;
      mret i
  end.

(** [user.delete()]: the row goes, and [on_delete=models.CASCADE] takes the
    verification rows of that user with it. *)
Definition User_delete (uid : Z) : M unit :=
  w ← get_world;
  put_world
    (set_verifications (filter (λ kv, user kv.2 ≠ uid))
       (set_users (delete uid) w)).

(** [send_mail(..., fail_silently=False)] inside [try]: [true] when the
    mail was handed over, [false] when the call raised. *)
Definition send_mail (m : Mail) : M bool :=
  w ← get_world;
  let delivered := smtp E (mail_calls w) in
  put_world
    (mkWorld (users w) (next_user_id w) (verifications w)
       (next_verification_id w)
       (if delivered then outbox w ++ [m] else outbox w)
       (clock_reads w) (rng_calls w) (S (mail_calls w)));;
  mret delivered.

(** *** The session *)

Definition PENDING : string := "pending_user_id".
Definition SESSION_KEY : string := "_auth_user_id".

(** [request.session[k] = v]. *)
Definition session_set (k : string) (v : Z) : M unit :=
  s ← get_session; put_session (<[k := v]> s).

(** [del request.session[k]]; a missing key is a [KeyError]. *)
Definition session_del (k : string) : M unit :=
  s ← get_session;
  match s !! k with
  | Some _ => put_session (delete k s)
  | None => raise
  end.

(** [django.contrib.auth.login]: a session signed in as somebody else is
    flushed first; then the user's key is stored. *)
Definition logged_in (uid : Z) (s : gmap string Z) : gmap string Z :=
  match s !! SESSION_KEY with
  | Some old =>
      if decide (old = uid) then <[SESSION_KEY := uid]> s
      else <[SESSION_KEY := uid]> ∅
  | None => <[SESSION_KEY := uid]> s
  end.

Definition login (uid : Z) : M unit :=
  s ← get_session; put_session (logged_in uid s).

(** [django.contrib.auth.logout]: [request.session.flush()]. *)
Definition logout : M unit := put_session ∅.

(** *** forms.py *)

Inductive ValidationError := mkValidationError (message : string).

(** [SignUpForm.clean_email], on the value the email field has cleaned. *)
Definition clean_email (email : string) : ValidationError + string :=
  if String.eqb email "" then inr email
  else
    let domain :=
      if Py.contains "@" email
      then default "" (Py.split "@" email !! 1%nat)
      else "" in
    if negb (String.eqb domain ALLOWED_EMAIL_DOMAIN)
    then inl (mkValidationError
                ("Registration is only allowed for " +:+ ALLOWED_EMAIL_DOMAIN
                 +:+ " email addresses."))
    else inr email.

(** [User.email] is declared [unique=True]: the model form refuses an
    address some row already has. *)
Definition email_taken (e : string) (us : gmap Z User) : Prop :=
  map_Exists (λ _ u, email u = e) us.

(** [SignUpForm(request.POST).is_valid()] and its cleaned data. The email
    field is a [forms.EmailField(max_length=255, required=True)]: it strips
    the value, refuses the empty one and one longer than 255 characters;
    [clean_email] and the uniqueness of [User.email] follow; the other checks
    are Django's. *)
Definition SignUpForm_clean (post : SignUpPost) (us : gmap Z User)
    : option SignUpPost :=
  let e := Py.strip (post_email post) in
  if String.eqb e "" then None
  else if bool_decide (255 < String.length e)%nat then None
  else
    match clean_email e with
    | inl _ => None
    | inr e' =>
        if bool_decide (email_taken e' us) then None
        else if inherited_clean E post us
        then Some (mkSignUpPost e' (post_username post)
                     (post_password1 post) (post_password2 post))
        else None
    end.

(** [VerificationForm.clean_code], on the value the field has cleaned. *)
Definition clean_code (c : string) : ValidationError + string :=
  if negb (String.eqb c "") && negb (Py.isdigit c)
  then inl (mkValidationError "Verification code must contain only digits.")
  else inr c.

(** [VerificationForm(request.POST).is_valid()] and [cleaned_data['code']].
    The field is a [forms.CharField(max_length=6, min_length=6)]: it strips
    the value and refuses the empty one and any length other than 6. *)
Definition VerificationForm_clean (raw : string) : option string :=
  let c := Py.strip raw in
  if String.eqb c "" then None
  else if bool_decide (String.length c < 6)%nat then None
  else if bool_decide (6 < String.length c)%nat then None
  else
    match clean_code c with
    | inl _ => None
    | inr c' => Some c'
    end.

(** *** views.py *)

Inductive Method (A : Type) := GET | POST (data : A).
Global Arguments GET {A}.
Global Arguments POST {A} data.

(** [request.method] with [request.POST], and [request.user]: [None] is the
    anonymous user. *)
Record HttpRequest (A : Type) := mkRequest {
  method : Method A;
  request_user : option (Z * User)
}.
Global Arguments mkRequest {A} method request_user.
Global Arguments method {A} h.
Global Arguments request_user {A} h.

Definition is_authenticated {A} (req : HttpRequest A) : bool :=
  bool_decide (is_Some (request_user req)).

(** [redirect(name)], or [render(request, template, {'form': form})] with
    whether the form shown carries errors. *)
Inductive HttpResponse :=
| redirect (to : string)
| render (template : string) (form_errors : bool).

Definition SIGNUP_SUBJECT : string := "Verify your email - Demo App".

(** The first half of a valid sign-up: [form.save(commit=False)],
    [user.is_active = False], [user.save()] and
    [EmailVerification.objects.create(user=user)]. *)
Definition signup_issue (cleaned : SignUpPost)
    : M (Z * EmailVerificationObj) :=
  uid ← User_save None
          (mkUser (post_email cleaned) (post_username cleaned) false false);
  verification ← objects_create uid;
  mret (uid, verification).

(** The second half: the mail, and what follows from its outcome. *)
Definition signup_send (cleaned : SignUpPost)
    (issued : Z * EmailVerificationObj) : M HttpResponse :=
  delivered ← send_mail
                (mkMail (post_email cleaned) SIGNUP_SUBJECT
                   (post_username cleaned) (o_code issued.2));
  if (delivered : bool) then
    messages_add success
      "Registration successful! Check your email for verification code.";;
    session_set PENDING issued.1;;
    mret (redirect "verify")
  else
    User_delete issued.1;;
    messages_add error
      "Failed to send verification email. Please try again.";;
    mret (render "authentication/signup.html" false).

Definition signup_view (req : HttpRequest SignUpPost) : M HttpResponse :=
  if is_authenticated req then mret (redirect "home")
  else
    match method req with
    | POST data =>
        w ← get_world;
        match SignUpForm_clean data (users w) with
        | Some cleaned =>
            issued ← signup_issue cleaned;
            signup_send cleaned issued
        | None => mret (render "authentication/signup.html" true)
        end
    | GET => mret (render "authentication/signup.html" false)
    end.

Definition INVALID_OR_EXPIRED : string :=
  "Invalid or expired verification code.".

(** The branch of [verify_view] taken when the code is accepted. *)
Definition verify_accept (pending : Z) (u : User)
    (verification : EmailVerificationObj) : M HttpResponse :=
  save (mkObj (pk verification) (o_user verification) (o_code verification)
          (o_created_at verification) (o_expires_at verification) true);;
  User_save (Some pending) (mkUser (email u) (username u) true true);;
  session_del PENDING;;
  login pending;;
  messages_add success "Email verified successfully!";;
  mret (redirect "home").

Definition verify_view (req : HttpRequest string) : M HttpResponse :=
  s ← get_session;
  match (s : gmap string Z) !! PENDING with
  | None | Some 0 =>
      messages_add error "No pending verification.";;
      mret (redirect "signup")
  | Some pending_user_id =>
      w ← get_world;
      match users w !! pending_user_id with
      | None =>
          messages_add error "Invalid verification session.";;
          mret (redirect "signup")
      | Some u =>
          match method req with
          | POST raw =>
              match VerificationForm_clean raw with
              | Some c =>
                  match first (objects_filter pending_user_id c
                                 (verifications w)) with
                  | Some (i, r) =>
                      valid ← is_valid (from_db i r);
                      if (valid : bool)
                      then verify_accept pending_user_id u (from_db i r)
                      else
                        messages_add error INVALID_OR_EXPIRED;;
                        mret (render "authentication/verify.html" false)
                  | None =>
                      messages_add error INVALID_OR_EXPIRED;;
                      mret (render "authentication/verify.html" false)
                  end
              | None => mret (render "authentication/verify.html" true)
              end
          | GET => mret (render "authentication/verify.html" false)
          end
      end
  end.

Record LoginPost := mkLoginPost {
  login_email : string;
  login_password : string;
  (** [request.GET.get('next', 'home')] *)
  login_next : string
}.

Definition login_view (req : HttpRequest LoginPost) : M HttpResponse :=
  if is_authenticated req then mret (redirect "home")
  else
    match method req with
    | POST data =>
        w ← get_world;
        match authenticate E (login_email data) (login_password data)
                (users w) with
        | Some (uid, u) =>
            if negb (is_verified u) then
              messages_add error
                "Please verify your email before logging in.";;
              session_set PENDING uid;;
              mret (redirect "verify")
            else
              login uid;;
              messages_add success
                ("Welcome back, " +:+ username u +:+ "!");;
              mret (redirect (login_next data))
        | None => mret (render "authentication/login.html" true)
        end
    | GET => mret (render "authentication/login.html" false)
    end.

(** [@login_required]: an anonymous request is sent to [LOGIN_URL]. *)
Definition login_required {A} (view : HttpRequest A → M HttpResponse)
    (req : HttpRequest A) : M HttpResponse :=
  if is_authenticated req then view req else mret (redirect "login").

Definition home_view : HttpRequest unit → M HttpResponse :=
  login_required (λ _, mret (render "home.html" false)).

Definition logout_view : HttpRequest unit → M HttpResponse :=
  login_required (λ _,
    logout;;
    messages_add info "You have been logged out.";;
    mret (redirect "login")).

(** *** The running application *)

(** The database and the sessions of the clients. *)
Record System := mkSystem {
  sys_world : World;
  sessions : gmap nat (gmap string Z)
}.

(** The routes of [urls.py] that lead to a view of the application. *)
Inductive Request :=
| Signup (m : Method SignUpPost)
| Verify (m : Method string)
| Login (m : Method LoginPost)
| Home
| Logout.

(** [AuthenticationMiddleware]: the user the session is signed in as, when
    the row exists and is active. *)
Definition get_user (w : World) (s : gmap string Z) : option (Z * User) :=
  match s !! SESSION_KEY with
  | Some uid =>
      match users w !! uid with
      | Some u => if is_active u then Some (uid, u) else None
      | None => None
      end
  | None => None
  end.

Definition dispatch (r : Request) (ru : option (Z * User))
    : M HttpResponse :=
  match r with
  | Signup m => signup_view (mkRequest m ru)
  | Verify m => verify_view (mkRequest m ru)
  | Login m => login_view (mkRequest m ru)
  | Home => home_view (mkRequest GET ru)
  | Logout => logout_view (mkRequest GET ru)
  end.

Definition session_of (client : nat) (st : System) : gmap string Z :=
  default ∅ (sessions st !! client).

(** One request of one client, from the middleware to the response. *)
Definition handle (client : nat) (r : Request) (st : System)
    : option (HttpResponse * list (Level * string) * System) :=
  let s := session_of client st in
  match dispatch r (get_user (sys_world st) s)
          (mkCtx (sys_world st) s []) with
  | Some (resp, c) =>
      Some (resp, flashed c,
            mkSystem (world c) (<[client := session c]> (sessions st)))
  | None => None
  end.

Definition init : System := mkSystem (mkWorld ∅ 1 ∅ 1 [] 0 0 0) ∅.

Inductive step : System → System → Prop :=
| step_handle client r st resp msgs st' :
    handle client r st = Some (resp, msgs, st') → step st st'.

Definition reachable (st : System) : Prop := rtc step init st.

(** *** The outcomes the specification names *)

Definition signalled (l : Level) (text : string)
    (msgs : list (Level * string)) : Prop :=
  (l, text) ∈ msgs.

Definition InvalidOrExpiredCode (msgs : list (Level * string)) : Prop :=
  signalled error INVALID_OR_EXPIRED msgs.

Definition NoPendingVerification (msgs : list (Level * string)) : Prop :=
  signalled error "No pending verification." msgs
  ∨ signalled error "Invalid verification session." msgs.


Definition MailSendFailed (msgs : list (Level * string)) : Prop :=
  signalled error "Failed to send verification email. Please try again."
    msgs.

End Model.

(** ** The states the operations lead to *)

(** The context after [k] more calls of the random generator. *)
Definition drawn (k : nat) (c : Ctx) : Ctx :=
  mkCtx (mkWorld (users (world c)) (next_user_id (world c))
           (verifications (world c)) (next_verification_id (world c))
           (outbox (world c)) (clock_reads (world c))
           (k + rng_calls (world c)) (mail_calls (world c)))
        (session c) (flashed c).

(** The context after [k] more readings of the clock. *)
Definition ticked (k : nat) (c : Ctx) : Ctx :=
  mkCtx (mkWorld (users (world c)) (next_user_id (world c))
           (verifications (world c)) (next_verification_id (world c))
           (outbox (world c)) (k + clock_reads (world c))
           (rng_calls (world c)) (mail_calls (world c)))
        (session c) (flashed c).

(** A code as [generate_code] makes them. *)
Definition six_digits (s : string) : Prop :=
  String.length s = 6%nat ∧ Py.all_chars Py.is_decimal_digit s = true.

(** The row of a verification that has been used. *)
Definition mark_used (r : EmailVerification) : EmailVerification :=
  mkEmailVerification (user r) (code r) (created_at r) (expires_at r) true.

(** The row of an account that has verified its address. *)
Definition activate (u : User) : User :=
  mkUser (email u) (username u) true true.

Section Outcomes.

Context (E : Env).

(** The context after [objects.create(user=uid)] has stored the code [s]. *)
Definition issued (uid : Z) (s : string) (c : Ctx) : Ctx :=
  let w := world c in
  mkCtx (mkWorld (users w) (next_user_id w)
           (<[next_verification_id w :=
                mkEmailVerification uid s
                  (wall_clock E (S (clock_reads w)))
                  (wall_clock E (clock_reads w) + thirty_minutes) false]>
              (verifications w))
           (next_verification_id w + 1) (outbox w) (2 + clock_reads w)
           (6 + rng_calls w) (mail_calls w))
        (session c) (flashed c).

(** The context after [verify_view] has accepted the code of row [i]. *)
Definition verified (uid i : Z) (u : User) (r : EmailVerification)
    (c : Ctx) : Ctx :=
  let w := world c in
  mkCtx (mkWorld (<[uid := activate u]> (users w))
           (next_user_id w `max` (uid + 1))
           (<[i := mark_used r]> (verifications w))
           (next_verification_id w) (outbox w) (1 + clock_reads w)
           (rng_calls w) (mail_calls w))
        (logged_in uid (delete PENDING (session c)))
        (flashed c ++ [(success, "Email verified successfully!")]).

(** The context after [verify_view] has refused a code, having read the
    clock [k] times. *)
Definition refused (k : nat) (c : Ctx) : Ctx :=
  mkCtx (world (ticked k c)) (session c)
        (flashed c ++ [(error, INVALID_OR_EXPIRED)]).

(** The context after [verify_view] has found no pending account. *)
Definition turned_away (text : string) (c : Ctx) : Ctx :=
  mkCtx (world c) (session c) (flashed c ++ [(error, text)]).

(** The row [signup_view] creates for a valid form. *)
Definition new_user (cleaned : SignUpPost) : User :=
  mkUser (post_email cleaned) (post_username cleaned) false false.

(** The context after [user.save()] in [signup_view]. *)
Definition enrolled (cleaned : SignUpPost) (c : Ctx) : Ctx :=
  let w := world c in
  mkCtx (mkWorld (<[next_user_id w := new_user cleaned]> (users w))
           (next_user_id w + 1) (verifications w) (next_verification_id w)
           (outbox w) (clock_reads w) (rng_calls w) (mail_calls w))
        (session c) (flashed c).

Definition signup_mail (cleaned : SignUpPost) (s : string) : Mail :=
  mkMail (post_email cleaned) SIGNUP_SUBJECT (post_username cleaned) s.

(** The context after the mail went out. *)
Definition delivered (uid : Z) (m : Mail) (c : Ctx) : Ctx :=
  let w := world c in
  mkCtx (mkWorld (users w) (next_user_id w) (verifications w)
           (next_verification_id w) (outbox w ++ [m]) (clock_reads w)
           (rng_calls w) (S (mail_calls w)))
        (<[PENDING := uid]> (session c))
        (flashed c
         ++ [(success,
              "Registration successful! Check your email for verification code.")]).

(** The context after the mail failed and the account was deleted. *)
Definition rolled_back (uid : Z) (c : Ctx) : Ctx :=
  let w := world c in
  mkCtx (mkWorld (delete uid (users w)) (next_user_id w)
           (filter (λ kv, user kv.2 ≠ uid) (verifications w))
           (next_verification_id w) (outbox w) (clock_reads w)
           (rng_calls w) (S (mail_calls w)))
        (session c)
        (flashed c
         ++ [(error,
              "Failed to send verification email. Please try again.")]).

(** The context after [login_view] has sent an unverified account to the
    verification page. *)
Definition sent_to_verify (uid : Z) (c : Ctx) : Ctx :=
  mkCtx (world c) (<[PENDING := uid]> (session c))
        (flashed c
         ++ [(error, "Please verify your email before logging in.")]).

(** The context after [login_view] has signed a verified account in. *)
Definition welcomed (uid : Z) (u : User) (c : Ctx) : Ctx :=
  mkCtx (world c) (logged_in uid (session c))
        (flashed c ++ [(success, "Welcome back, " +:+ username u +:+ "!")]).

End Outcomes.

(** ** What a request does to the database, and what it keeps *)

(** The four ways in which a request changes the two tables and their key
    counters: not at all; a sign-up that stores an account and its record; a
    sign-up that stores both and deletes the account again; a verification
    that activates an account and marks a record used. *)
Inductive effect (w w' : World) : Prop :=
| effect_frame :
    users w' = users w →
    next_user_id w' = next_user_id w →
    verifications w' = verifications w →
    next_verification_id w' = next_verification_id w →
    effect w w'
| effect_signup (nu : User) (s : string) (t1 t2 : Z) :
    is_active nu = false →
    is_verified nu = false →
    six_digits s →
    users w' = <[next_user_id w := nu]> (users w) →
    next_user_id w' = next_user_id w + 1 →
    verifications w'
    = <[next_verification_id w :=
          mkEmailVerification (next_user_id w) s t2 t1 false]>
        (verifications w) →
    next_verification_id w' = next_verification_id w + 1 →
    effect w w'
| effect_rollback (nu : User) (r : EmailVerification) :
    user r = next_user_id w →
    users w' = delete (next_user_id w) (<[next_user_id w := nu]> (users w)) →
    next_user_id w' = next_user_id w + 1 →
    verifications w'
    = filter (λ kv, user kv.2 ≠ next_user_id w)
        (<[next_verification_id w := r]> (verifications w)) →
    next_verification_id w' = next_verification_id w + 1 →
    effect w w'
| effect_verify (uid : Z) (u : User) (i : Z) (r : EmailVerification) :
    users w !! uid = Some u →
    verifications w !! i = Some r →
    users w' = <[uid := activate u]> (users w) →
    next_user_id w' = next_user_id w `max` (uid + 1) →
    verifications w' = <[i := mark_used r]> (verifications w) →
    next_verification_id w' = next_verification_id w →
    effect w w'.

(** What holds of the database in every state the application reaches: keys
    lie below their counters, every record belongs to an existing account and
    is the only record of that account, every code is six digits, and the two
    flags of an account agree. *)
Record wf (w : World) : Prop := mk_wf {
  wf_next_user : 1 ≤ next_user_id w;
  wf_next_record : 1 ≤ next_verification_id w;
  wf_user_keys : ∀ i u, users w !! i = Some u → 1 ≤ i < next_user_id w;
  wf_record_keys :
    ∀ i r, verifications w !! i = Some r → 1 ≤ i < next_verification_id w;
  wf_owner :
    ∀ i r, verifications w !! i = Some r → is_Some (users w !! user r);
  wf_single :
    ∀ i j r r', verifications w !! i = Some r →
                verifications w !! j = Some r' → user r = user r' → i = j;
  wf_codes : ∀ i r, verifications w !! i = Some r → six_digits (code r);
  wf_flags : ∀ i u, users w !! i = Some u → is_active u = is_verified u
}.

(** What a record keeps for as long as it is stored. *)
Definition same_record (r r' : EmailVerification) : Prop :=
  user r' = user r ∧ code r' = code r ∧ created_at r' = created_at r
  ∧ expires_at r' = expires_at r ∧ (is_used r = true → is_used r' = true).

(** ** What a view does to its context *)

(** The seven things a view can do: nothing but flash messages and read the
    clock; store an account and its record and set the pending identifier;
    store both and delete the account again; accept a code; send an unverified
    account to the verification page; sign a verified account in; sign the
    session out. *)
Inductive outcome (E : Env) (c c' : Ctx) : Prop :=
| outcome_quiet :
    users (world c') = users (world c) →
    next_user_id (world c') = next_user_id (world c) →
    verifications (world c') = verifications (world c) →
    next_verification_id (world c') = next_verification_id (world c) →
    outbox (world c') = outbox (world c) →
    rng_calls (world c') = rng_calls (world c) →
    mail_calls (world c') = mail_calls (world c) →
    session c' = session c →
    outcome E c c'
| outcome_signed_up (data cleaned : SignUpPost) (s : string) :
    SignUpForm_clean E data (users (world c)) = Some cleaned →
    six_digits s →
    smtp E (mail_calls (world c)) = true →
    c' = delivered (next_user_id (world c)) (signup_mail cleaned s)
           (issued E (next_user_id (world c)) s (enrolled cleaned c)) →
    outcome E c c'
| outcome_rolled_back (data cleaned : SignUpPost) (s : string) :
    SignUpForm_clean E data (users (world c)) = Some cleaned →
    six_digits s →
    smtp E (mail_calls (world c)) = false →
    c' = rolled_back (next_user_id (world c))
           (issued E (next_user_id (world c)) s (enrolled cleaned c)) →
    outcome E c c'
| outcome_verified (uid : Z) (u : User) (i : Z) (r : EmailVerification) :
    session c !! PENDING = Some uid →
    uid ≠ 0 →
    users (world c) !! uid = Some u →
    verifications (world c) !! i = Some r →
    user r = uid →
    is_used r = false →
    wall_clock E (clock_reads (world c)) < expires_at r →
    c' = verified uid i u r c →
    outcome E c c'
| outcome_sent_to_verify (data : LoginPost) (uid : Z) (u : User) :
    authenticate E (login_email data) (login_password data) (users (world c))
    = Some (uid, u) →
    is_verified u = false →
    c' = sent_to_verify uid c →
    outcome E c c'
| outcome_welcomed (data : LoginPost) (uid : Z) (u : User) :
    authenticate E (login_email data) (login_password data) (users (world c))
    = Some (uid, u) →
    is_verified u = true →
    c' = welcomed uid u c →
    outcome E c c'
| outcome_logged_out :
    world c' = world c →
    session c' = ∅ →
    outcome E c c'.

(** What holds of the database in every reachable state beyond [wf]: no two
    accounts share an address, every account has a record, a record is used
    exactly when its account is verified, and every mail that went out carries
    the address of a stored account and the code of its record. *)
Record consistent (w : World) : Prop := mk_consistent {
  unique_emails :
    ∀ i j u u', users w !! i = Some u → users w !! j = Some u' →
                email u = email u' → i = j;
  has_record :
    ∀ uid u, users w !! uid = Some u →
             ∃ i r, verifications w !! i = Some r ∧ user r = uid;
  used_iff_verified :
    ∀ i r u, verifications w !! i = Some r → users w !! user r = Some u →
             is_used r = is_verified u;
  mails_match :
    ∀ m, m ∈ outbox w →
         ∃ uid u i r, users w !! uid = Some u ∧ email u = mail_to m
                      ∧ verifications w !! i = Some r ∧ user r = uid
                      ∧ code r = mail_code m
}.

(** The credential check returns rows of the table it is given. *)
Definition authenticate_sound (E : Env) : Prop :=
  ∀ e p (us : gmap Z User) uid u,
    authenticate E e p us = Some (uid, u) → us !! uid = Some u.

(** A session is signed in only as a verified account, and its pending
    identifier names a stored account. *)
Definition session_ok (w : World) (s : gmap string Z) : Prop :=
  ∀ uid,
    (s !! SESSION_KEY = Some uid →
     ∃ u, users w !! uid = Some u ∧ is_verified u = true)
    ∧ (s !! PENDING = Some uid → is_Some (users w !! uid)).

(** What holds of the sessions in every reachable state when the credential
    check is sound. *)
Definition sessions_sound (st : System) : Prop :=
  ∀ client s, sessions st !! client = Some s → session_ok (sys_world st) s.

(** ** A concrete environment and concrete states *)

(** A clock that advances by a second per reading, a fixed sequence of random
    numbers, a mail transport that works or not, Django checks that pass, and
    a credential check that accepts the password "secret" for the first row
    with the given address. *)
Definition demo_env (mail_works : bool) : Env :=
  mkEnv (λ n, 1000000 * Z.of_nat n)
        (λ n, (Z.of_nat n + 3) * 2718281828459045)
        (λ _, mail_works)
        (λ _ _, true)
        (λ e p us,
           if String.eqb p "secret"
           then head (filter (λ kv, email kv.2 = e) (map_to_list us))
           else None)
        (λ i j, bool_decide (i < j)).

Definition empty_ctx : Ctx := mkCtx (mkWorld ∅ 1 ∅ 1 [] 0 0 0) ∅ [].

Definition ada_post : SignUpPost :=
  mkSignUpPost "ada@sydney.edu.pl" "ada" "correct horse" "correct horse".

Definition anonymous {A} (m : Method A) : HttpRequest A := mkRequest m None.

(** The account and the record of the sign-up of [ada_post] in
    [demo_env true], started from the empty database. *)
Definition ada : User := mkUser "ada@sydney.edu.pl" "ada" false false.

Definition ada_record : EmailVerification :=
  mkEmailVerification 1 "925814" 1000000 1800000000 false.

Definition ada_pending : Ctx :=
  mkCtx (mkWorld {[1 := ada]} 2 {[1 := ada_record]} 2
           [signup_mail ada_post "925814"] 2 6 1)
        {[PENDING := 1]} [].

(** The same account with a second, later record that carries the same
    code. *)
Definition ada_record_again : EmailVerification :=
  mkEmailVerification 1 "925814" 5000000 1805000000 false.

Definition ada_twice : Ctx :=
  mkCtx (mkWorld {[1 := ada]} 2 (<[2 := ada_record_again]> {[1 := ada_record]})
           3 [] 4 12 2)
        {[PENDING := 1]} [].

(** The application after that sign-up, made by client 0. *)
Definition ada_signed_up : System :=
  mkSystem (world ada_pending) {[0%nat := session ada_pending]}.

(** The application after client 0 has then submitted the code. *)
Definition ada_verified : System :=
  mkSystem (mkWorld {[1 := activate ada]} 2 {[1 := mark_used ada_record]} 2
              [signup_mail ada_post "925814"] 3 6 1)
           {[0%nat := {[SESSION_KEY := 1]}]}.

(** ** An address with a quoted local part *)

Definition dquote : string := String (ascii_of_nat 34) EmptyString.

(** The address ["x@sydney.edu.pl@y"@evil.com], quotes included: its local
    part is a quoted string, its domain is evil.com. *)
Definition eve_email : string :=
  dquote +:+ "x@sydney.edu.pl@y" +:+ dquote +:+ "@evil.com".

Definition eve_post : SignUpPost :=
  mkSignUpPost eve_email "eve" "correct horse" "correct horse".

(** The domain of an address in the words of the specification: the
    substring after '@'. [after_first_at] reads it from the first '@',
    [after_last_at] from the last one, which is where the domain of an
    address begins. An address without '@' has none. *)
Fixpoint after_first_at (s : string) : option string :=
  match s with
  | EmptyString => None
  | String a s' => if Ascii.eqb a "@" then Some s' else after_first_at s'
  end.

Fixpoint after_last_at (s : string) : option string :=
  match s with
  | EmptyString => None
  | String a s' =>
      match after_last_at s' with
      | Some d => Some d
      | None => if Ascii.eqb a "@" then Some s' else None
      end
  end.

(** ** More concrete states *)

(** A record whose code column is empty, as no [save] leaves it. *)
Definition blank_record : EmailVerification :=
  mkEmailVerification 1 "" 1000000 1800000000 false.

Definition blank_ctx : Ctx :=
  mkCtx (mkWorld {[1 := ada]} 2 {[1 := blank_record]} 2 [] 2 0 0) ∅ [].


(** A fresh session in the application after Ada has verified. *)
Definition ada_returns : Ctx := mkCtx (sys_world ada_verified) ∅ [].

Definition gmail_post : SignUpPost :=
  mkSignUpPost "user@gmail.com" "user" "correct horse" "correct horse".

(** * Properties *)

(** ** Running the primitives *)

Ltac unfold_monad :=
  unfold mbind, M_bind, mret, M_ret, get_world, put_world, get_session,
    put_session, messages_add, raise.

Ltac run := repeat (progress (unfold_monad; simpl)).

Lemma drawn_0 c : drawn 0 c = c.
Proof. by destruct c as [[] ? ?]. Qed.

Lemma drawn_S k c : drawn k (drawn 1 c) = drawn (S k) c.
Proof. unfold drawn; simpl. do 3 f_equal. lia. Qed.

Lemma digits_get (i : nat) :
  (i < 10)%nat →
  ∃ a, String.get i Py.digits = Some a ∧ Py.is_decimal_digit a = true.
Proof.
  intros Hi. do 10 (destruct i as [|i]; [by eexists|]). lia.
Qed.

(** The rounded product of a float below 1 and 10 stays below 10. *)
Lemma floor_mul_10 (m : Z) : 0 ≤ m < 2 ^ 53 → 0 ≤ Py.floor_mul m 10 < 10.
Proof.
  intros Hm. unfold Py.floor_mul. cbv zeta.
  case_bool_decide as Hd.
  - split; [apply Z.div_pos; lia|apply Z.div_lt_upper_bound; lia].
  - assert (0 < m * 10) as Hpos.
    { destruct (decide (m = 0)) as [->|]; [|lia]. simpl in Hd. lia. }
    assert (Z.log2 (m * 10) < 57) as Hlog by (apply Z.log2_lt_pow2; lia).
    assert (Z.log2 (m * 10) + 1 - 53 = 1 ∨ Z.log2 (m * 10) + 1 - 53 = 2
            ∨ Z.log2 (m * 10) + 1 - 53 = 3 ∨ Z.log2 (m * 10) + 1 - 53 = 4)
      as Hcases by lia.
    pose proof (Z.log2_spec (m * 10) Hpos) as Hspec.
    change (2 ^ 53) with 9007199254740992 in *.
    destruct Hcases as [Hs|[Hs|[Hs|Hs]]]; rewrite Hs;
      [replace (Z.log2 (m * 10)) with 53 in Hspec by lia
      |replace (Z.log2 (m * 10)) with 54 in Hspec by lia
      |replace (Z.log2 (m * 10)) with 55 in Hspec by lia
      |replace (Z.log2 (m * 10)) with 56 in Hspec by lia];
      cbn in Hspec;
      [change (2 ^ 1) with 2; change (2 ^ (1 - 1)) with 1
      |change (2 ^ 2) with 4; change (2 ^ (2 - 1)) with 2
      |change (2 ^ 3) with 8; change (2 ^ (3 - 1)) with 4
      |change (2 ^ 4) with 16; change (2 ^ (4 - 1)) with 8];
      (destruct (_ || _) eqn:Hb;
       [apply orb_true_iff in Hb as [Hb%bool_decide_eq_true
                                    |[Hb%bool_decide_eq_true _]%andb_true_iff]
       |];
       (split; [apply Z.div_pos; [|lia]
               |apply Z.div_lt_upper_bound; [lia|]])).
    all: Z.div_mod_to_equations; nia.
Qed.

Lemma index_in_range (r : Z) :
  0 ≤ r < 2 ^ 53 → (Z.to_nat (Py.floor_mul r 10) < 10)%nat.
Proof. intros Hr%floor_mul_10. lia. Qed.

(** The product that the exact quotient floors to 8 is rounded up to 9.0. *)
Example floor_mul_rounds_up :
  Py.floor_mul 8106479329266892 10 = 9
  ∧ (8106479329266892 * 10) `div` 2 ^ 53 = 8.
Proof. split; reflexivity. Qed.

Section Generator.

Context (E : Env).

Lemma random_run c :
  random E c = Some (mersenne E (rng_calls (world c)) `mod` 2 ^ 53,
                     drawn 1 c).
Proof. reflexivity. Qed.

Lemma choices_digits k c :
  ∃ l, choices E Py.digits k c = Some (l, drawn k c)
       ∧ List.length l = k
       ∧ Forall (λ a, Py.is_decimal_digit a = true) l.
Proof.
  revert c. induction k as [|k IH]; intros c.
  - exists []. rewrite drawn_0. by repeat split.
  - destruct (digits_get
                (Z.to_nat (Py.floor_mul
                             (mersenne E (rng_calls (world c)) `mod` 2 ^ 53)
                             10))) as (a & Ha & Hd).
    { apply index_in_range, Z.mod_pos_bound. lia. }
    destruct (IH (drawn 1 c)) as (l & Hl & Hlen & Hall).
    exists (a :: l). split; [|split].
    + cbn [choices]. unfold mbind, M_bind at 1. rewrite random_run.
      change (Z.of_nat (String.length Py.digits)) with 10.
      rewrite Ha. unfold mbind, M_bind. rewrite Hl.
      by rewrite drawn_S.
    + simpl. by rewrite Hlen.
    + by constructor.
Qed.

Lemma join_length l : String.length (Py.join l) = List.length l.
Proof. induction l; simpl; congruence. Qed.

Lemma join_all_chars p l :
  Forall (λ a, p a = true) l → Py.all_chars p (Py.join l) = true.
Proof. induction 1 as [|a l Ha _ IH]; simpl; [done|]. by rewrite Ha, IH. Qed.

Lemma generate_code_run c :
  ∃ s, generate_code E c = Some (s, drawn 6 c)
       ∧ String.length s = 6%nat
       ∧ Py.all_chars Py.is_decimal_digit s = true.
Proof.
  destruct (choices_digits 6 c) as (l & Hl & Hlen & Hall).
  exists (Py.join l). split; [|split].
  - unfold generate_code, mbind, M_bind. by rewrite Hl.
  - by rewrite join_length.
  - by apply join_all_chars.
Qed.

(** C8. Whatever the random generator yields, [generate_code] returns (it
    raises nothing), its result has exactly 6 characters, each of them one
    of '0'..'9', and nothing but the position of the random generator has
    changed: the database, the session and the messages are as before. *)
Theorem generate_code_six_digits (c : Ctx) :
  ∃ s c',
    generate_code E c = Some (s, c')
    ∧ String.length s = 6%nat
    ∧ Py.all_chars Py.is_decimal_digit s = true
    ∧ users (world c') = users (world c)
    ∧ verifications (world c') = verifications (world c)
    ∧ next_user_id (world c') = next_user_id (world c)
    ∧ next_verification_id (world c') = next_verification_id (world c)
    ∧ outbox (world c') = outbox (world c)
    ∧ session c' = session c
    ∧ flashed c' = flashed c.
Proof.
  destruct (generate_code_run c) as (s & Hs & Hlen & Hdig).
  exists s, (drawn 6 c). by repeat split.
Qed.

End Generator.

(** ** Strings the forms accept *)

Lemma decimal_not_space a : Py.is_decimal_digit a = true → Py.isspace a = false.
Proof.
  unfold Py.is_decimal_digit, Py.isspace. cbv zeta.
  generalize (nat_of_ascii a). intros n.
  intros [H1 H2]%andb_true_iff.
  apply Nat.leb_le in H1. apply Nat.leb_le in H2.
  repeat match goal with
         | |- context [(?x <=? ?y)%nat] => destruct (Nat.leb_spec x y)
         | |- context [(?x =? ?y)%nat] => destruct (Nat.eqb_spec x y)
         end; simpl; try done; lia.
Qed.

Lemma decimal_isdigit_char a :
  Py.is_decimal_digit a = true → Py.isdigit_char a = true.
Proof. unfold Py.isdigit_char. by intros ->. Qed.

Lemma all_chars_impl (p q : ascii → bool) s :
  (∀ a, p a = true → q a = true) →
  Py.all_chars p s = true → Py.all_chars q s = true.
Proof.
  intros Hpq. induction s as [|a s IH]; simpl; [done|].
  intros [Ha Hs]%andb_true_iff. by rewrite (Hpq a Ha), IH.
Qed.

Lemma rstrip_id s :
  Py.all_chars (λ a, negb (Py.isspace a)) s = true → Py.rstrip s = s.
Proof.
  induction s as [|a s IH]; simpl; [done|].
  intros [Ha Hs]%andb_true_iff. rewrite (IH Hs).
  destruct s; [|done]. by apply negb_true_iff in Ha as ->.
Qed.

Lemma strip_id s :
  Py.all_chars (λ a, negb (Py.isspace a)) s = true → Py.strip s = s.
Proof.
  intros Hs. unfold Py.strip.
  assert (Py.lstrip s = s) as ->; [|by apply rstrip_id].
  destruct s as [|a s]; simpl in *; [done|].
  apply andb_true_iff in Hs as [Ha _]. by apply negb_true_iff in Ha as ->.
Qed.

Section Forms.

Context (E : Env).

Lemma VerificationForm_clean_six_digits s :
  six_digits s → VerificationForm_clean s = Some s.
Proof.
  intros [Hlen Hdig]. unfold VerificationForm_clean.
  rewrite strip_id.
  2:{ eapply all_chars_impl; [|done]. intros a Ha.
      by rewrite (decimal_not_space a Ha). }
  destruct s as [|a s]; [done|].
  change (String a s =? "")%string with false. cbn match.
  rewrite Hlen. simpl.
  unfold clean_code.
  change (String a s =? "")%string with false.
  assert (Py.isdigit (String a s) = true) as ->; [|done].
  unfold Py.isdigit. eapply all_chars_impl; [|done].
  apply decimal_isdigit_char.
Qed.

Lemma VerificationForm_clean_length raw c :
  VerificationForm_clean raw = Some c → String.length c = 6%nat.
Proof.
  unfold VerificationForm_clean.
  destruct (Py.strip raw =? "")%string; [done|].
  repeat case_bool_decide; try done.
  unfold clean_code.
  destruct (negb _ && negb _); [done|].
  intros [= <-]. lia.
Qed.

Lemma VerificationForm_clean_nonempty raw c :
  VerificationForm_clean raw = Some c → (c =? "")%string = false.
Proof.
  intros H%VerificationForm_clean_length. by destruct c.
Qed.

End Forms.

(** ** The query of [verify_view] *)

Section Query.

Context (E : Env).

Lemma objects_filter_elem uid c (t : gmap Z EmailVerification) i r :
  (i, r) ∈ objects_filter uid c t ↔ t !! i = Some r ∧ matching uid c (i, r).
Proof.
  unfold objects_filter.
  rewrite list_elem_of_filter, elem_of_map_to_list. tauto.
Qed.

Lemma first_None l : first E l = None ↔ l = [].
Proof.
  destruct l as [|x l]; simpl; [done|].
  destruct (first E l) as [y|]; [|done]. by destruct (before E y x).
Qed.

Lemma first_elem l x : first E l = Some x → x ∈ l.
Proof.
  revert x. induction l as [|a l IH]; simpl; intros x; [done|].
  destruct (first E l) as [y|].
  - destruct (before E y a); intros [= <-].
    + right. by apply IH.
    + left.
  - intros [= <-]. left.
Qed.

(** The row returned is one of the latest. *)
Lemma first_latest l x y :
  first E l = Some x → y ∈ l → created_at y.2 ≤ created_at x.2.
Proof.
  revert x. induction l as [|a l IH]; simpl; intros x Hx Hy.
  { by apply elem_of_nil in Hy. }
  destruct (first E l) as [z|] eqn:Hz.
  - specialize (IH z eq_refl).
    assert (created_at a.2 ≤ created_at x.2 ∧ created_at z.2 ≤ created_at x.2)
      as [Ha Hzx].
    { unfold before in Hx.
      destruct (bool_decide (created_at a.2 < created_at z.2)) eqn:H1;
        [apply bool_decide_eq_true in H1
        |apply bool_decide_eq_false in H1]; simpl in Hx.
      - injection Hx as <-. lia.
      - destruct (bool_decide (created_at a.2 = created_at z.2)) eqn:H2;
          [apply bool_decide_eq_true in H2
          |apply bool_decide_eq_false in H2]; simpl in Hx.
        + destruct (tie E z.1 a.1); injection Hx as <-; lia.
        + injection Hx as <-. lia. }
    apply elem_of_cons in Hy as [->|Hy]; [done|].
    specialize (IH Hy). lia.
  - apply first_None in Hz as ->. injection Hx as <-.
    apply elem_of_cons in Hy as [->|Hy]; [done|].
    by apply elem_of_nil in Hy.
Qed.

Lemma first_filter_Some uid c (t : gmap Z EmailVerification) i r :
  first E (objects_filter uid c t) = Some (i, r) →
  t !! i = Some r ∧ user r = uid ∧ code r = c ∧ is_used r = false.
Proof. intros H%first_elem%objects_filter_elem. apply H. Qed.

Lemma first_filter_None uid c (t : gmap Z EmailVerification) :
  first E (objects_filter uid c t) = None ↔
  ∀ i r, t !! i = Some r → user r = uid → code r = c → is_used r = true.
Proof.
  rewrite first_None. split.
  - intros Hnil i r Hi Hu Hc.
    destruct (is_used r) eqn:Hused; [done|].
    assert ((i, r) ∈ objects_filter uid c t) as Hin
      by by apply objects_filter_elem.
    rewrite Hnil in Hin. by apply elem_of_nil in Hin.
  - intros Hall.
    destruct (objects_filter uid c t) as [|[i r] l] eqn:Hl; [done|].
    assert ((i, r) ∈ objects_filter uid c t) as Hin
      by (rewrite Hl; left).
    apply objects_filter_elem in Hin as (Hi & Hu & Hc & Hused).
    simpl in *. rewrite (Hall i r Hi Hu Hc) in Hused. done.
Qed.

End Query.

(** ** Running the methods of the models *)

Section Methods.

Context (E : Env).

Lemma timezone_now_run c :
  timezone_now E c = Some (wall_clock E (clock_reads (world c)), ticked 1 c).
Proof. reflexivity. Qed.

Lemma is_valid_unused_run i r c :
  is_used r = false →
  is_valid E (from_db i r) c
  = Some (bool_decide (wall_clock E (clock_reads (world c)) < expires_at r),
          ticked 1 c).
Proof. intros Hr. unfold is_valid, from_db. simpl. by rewrite Hr. Qed.

(** Saving an object that was loaded from its row and has a code writes the
    object's fields to that row and draws nothing. *)
Lemma save_loaded_run i u cd cr e b r0 c :
  verifications (world c) !! i = Some r0 →
  (cd =? "")%string = false →
  save E (mkObj (Some i) u cd (Some cr) (Some e) b) c
  = Some (mkObj (Some i) u cd (Some cr) (Some e) b,
          mkCtx (set_verifications (<[i := mkEmailVerification u cd cr e b]>)
                   (world c))
                (session c) (flashed c)).
Proof.
  intros Hi Hcd. unfold save. simpl. rewrite Hcd.
  unfold super_save. run. by rewrite Hi.
Qed.

Lemma objects_create_run uid c :
  ∃ s, six_digits s
       ∧ objects_create E uid c
         = Some (mkObj (Some (next_verification_id (world c))) uid s
                   (Some (wall_clock E (S (clock_reads (world c)))))
                   (Some (wall_clock E (clock_reads (world c))
                          + thirty_minutes)) false,
                 issued E uid s c).
Proof.
  destruct (generate_code_run E c) as (s & Hs & Hlen & Hdig).
  exists s. split; [done|].
  unfold objects_create, save. simpl.
  unfold mbind at 1, M_bind at 1. rewrite Hs.
  reflexivity.
Qed.

End Methods.

(** ** Running [verify_view] *)

Section Verify.

Context (E : Env).

Lemma verify_accept_run uid i u r c :
  session c !! PENDING = Some uid →
  verifications (world c) !! i = Some r →
  (code r =? "")%string = false →
  verify_accept E uid u (from_db i r) (ticked 1 c)
  = Some (redirect "home", verified uid i u r c).
Proof.
  intros Hp Hi Hcode. unfold verify_accept, from_db. simpl.
  unfold mbind at 1, M_bind at 1.
  erewrite save_loaded_run; [|exact Hi|exact Hcode].
  unfold User_save, session_del, login. run. rewrite Hp. reflexivity.
Qed.

Lemma verify_view_pending req uid u c :
  session c !! PENDING = Some uid →
  uid ≠ 0 →
  users (world c) !! uid = Some u →
  verify_view E req c
  = match method req with
    | POST raw =>
        match VerificationForm_clean raw with
        | Some cd =>
            match first E (objects_filter uid cd (verifications (world c)))
            with
            | Some (i, r) =>
                if bool_decide
                     (wall_clock E (clock_reads (world c)) < expires_at r)
                then Some (redirect "home", verified uid i u r c)
                else Some (render "authentication/verify.html" false,
                           refused 1 c)
            | None => Some (render "authentication/verify.html" false,
                            refused 0 c)
            end
        | None => Some (render "authentication/verify.html" true, c)
        end
    | GET => Some (render "authentication/verify.html" false, c)
    end.
Proof.
  intros Hp Hne Hu. unfold verify_view. run. rewrite Hp.
  assert (∀ (A : Type) (x y : A),
            match uid with 0 => x | _ => y end = y) as Hz
    by (intros; by destruct uid).
  rewrite Hz. rewrite Hu.
  destruct (method req) as [|raw]; [by destruct c|].
  destruct (VerificationForm_clean raw) as [cd|] eqn:Hcd; [|by destruct c].
  destruct (first E _) as [[i r]|] eqn:Hfirst.
  - apply first_filter_Some in Hfirst as (Hi & _ & Hcode & Hused).
    pose proof (is_valid_unused_run E i r c Hused) as Hv.
    rewrite Hv.
    case_bool_decide.
    + apply verify_accept_run; [done..|].
      rewrite Hcode. by eapply VerificationForm_clean_nonempty.
    + reflexivity.
  - unfold refused, ticked. by destruct c as [[] ? ?].
Qed.

End Verify.

Section VerifyGuards.

Context (E : Env).

Lemma verify_view_no_pending req c :
  session c !! PENDING = None ∨ session c !! PENDING = Some 0 →
  verify_view E req c
  = Some (redirect "signup", turned_away "No pending verification." c).
Proof. intros [Hp|Hp]; unfold verify_view; run; by rewrite Hp. Qed.

Lemma verify_view_no_account req uid c :
  session c !! PENDING = Some uid →
  uid ≠ 0 →
  users (world c) !! uid = None →
  verify_view E req c
  = Some (redirect "signup", turned_away "Invalid verification session." c).
Proof.
  intros Hp Hne Hu. unfold verify_view. run. rewrite Hp.
  destruct uid; [done|..]; by rewrite Hu.
Qed.

End VerifyGuards.

(** ** Running [signup_view] and [login_view] *)

Section SignupLogin.

Context (E : Env).

Lemma signup_issue_run cleaned c :
  ∃ s, six_digits s
       ∧ signup_issue E cleaned c
         = Some ((next_user_id (world c),
                  mkObj (Some (next_verification_id (world c)))
                    (next_user_id (world c)) s
                    (Some (wall_clock E (S (clock_reads (world c)))))
                    (Some (wall_clock E (clock_reads (world c))
                           + thirty_minutes)) false),
                 issued E (next_user_id (world c)) s (enrolled cleaned c)).
Proof.
  destruct (objects_create_run E (next_user_id (world c))
              (enrolled cleaned c)) as (s & Hs & Hrun).
  exists s. split; [done|].
  unfold signup_issue, User_save. run.
  change (mkCtx _ (session c) (flashed c)) with (enrolled cleaned c).
  by rewrite Hrun.
Qed.

Lemma signup_send_run cleaned uid o c :
  signup_send E cleaned (uid, o) c
  = if smtp E (mail_calls (world c))
    then Some (redirect "verify",
               delivered uid (signup_mail cleaned (o_code o)) c)
    else Some (render "authentication/signup.html" false,
               rolled_back uid c).
Proof.
  unfold signup_send, send_mail, session_set, User_delete. run.
  by destruct (smtp E (mail_calls (world c))).
Qed.

Lemma signup_view_valid req data cleaned c :
  request_user req = None →
  method req = POST data →
  SignUpForm_clean E data (users (world c)) = Some cleaned →
  ∃ s, six_digits s
       ∧ signup_view E req c
         = let c1 := issued E (next_user_id (world c)) s
                       (enrolled cleaned c) in
           if smtp E (mail_calls (world c))
           then Some (redirect "verify",
                      delivered (next_user_id (world c))
                        (signup_mail cleaned s) c1)
           else Some (render "authentication/signup.html" false,
                      rolled_back (next_user_id (world c)) c1).
Proof.
  intros Hu Hm Hform.
  destruct (signup_issue_run cleaned c) as (s & Hs & Hrun).
  exists s. split; [done|].
  unfold signup_view, is_authenticated. rewrite Hu, Hm.
  rewrite bool_decide_false by (by intros [? ?]).
  run. rewrite Hform. unfold mbind, M_bind. rewrite Hrun.
  by rewrite signup_send_run.
Qed.

Lemma signup_view_other req c :
  is_Some (request_user req) ∨ method req = GET
  ∨ (∃ data, method req = POST data
             ∧ SignUpForm_clean E data (users (world c)) = None) →
  ∃ resp, signup_view E req c = Some (resp, c).
Proof.
  unfold signup_view, is_authenticated.
  case_bool_decide as Hauth; [by eexists|].
  intros [?|[->|(data & -> & Hform)]]; [done|by eexists|].
  run. rewrite Hform. by eexists.
Qed.

Lemma login_view_run req c :
  login_view E req c
  = if is_authenticated req then Some (redirect "home", c)
    else
      match method req with
      | POST data =>
          match authenticate E (login_email data) (login_password data)
                  (users (world c)) with
          | Some (uid, u) =>
              if is_verified u
              then Some (redirect (login_next data), welcomed uid u c)
              else Some (redirect "verify", sent_to_verify uid c)
          | None => Some (render "authentication/login.html" true, c)
          end
      | GET => Some (render "authentication/login.html" false, c)
      end.
Proof.
  unfold login_view. destruct (is_authenticated req); [done|].
  destruct (method req) as [|data]; [done|].
  run. destruct (authenticate E _ _ _) as [[uid u]|]; [|done].
  unfold login, session_set. by destruct (is_verified u).
Qed.

End SignupLogin.

(** ** Login of an account that is not verified *)

Lemma elem_of_app_singleton {A} (l : list A) (x : A) : x ∈ (l ++ [x])%list.
Proof. apply elem_of_app. right. left. Qed.



(** ** Sign-up whose mail fails *)

Lemma SignUpForm_clean_Some E post us cleaned :
  SignUpForm_clean E post us = Some cleaned →
  clean_email (Py.strip (post_email post)) = inr (post_email cleaned)
  ∧ ¬ email_taken (post_email cleaned) us.
Proof.
  unfold SignUpForm_clean.
  destruct (Py.strip (post_email post) =? "")%string; [done|].
  case_bool_decide; [done|].
  destruct (clean_email _) as [|e']; [done|].
  case_bool_decide; [done|].
  destruct (inherited_clean E post us); [|done].
  by intros [= <-].
Qed.

Lemma email_taken_insert_delete e i x (us : gmap Z User) :
  email_taken e (delete i (<[i := x]> us)) → email_taken e us.
Proof.
  intros (j & u & Hj & He).
  apply lookup_delete_Some in Hj as [Hne Hj].
  rewrite lookup_insert_ne in Hj by done. by exists j, u.
Qed.

(** C2. When the form of a sign-up is valid and the mail transport raises,
    the account that [user.save()] has just stored is deleted again before the
    response: afterwards its key is free, no row carries that address, the
    session is what it was (the request has set no pending identifier), and
    the answer is the sign-up page with the message to try again. *)
Theorem signup_mail_failure (E : Env) (req : HttpRequest SignUpPost)
    (data cleaned : SignUpPost) (c : Ctx) :
  request_user req = None →
  method req = POST data →
  SignUpForm_clean E data (users (world c)) = Some cleaned →
  smtp E (mail_calls (world c)) = false →
  ∃ iss c1 c',
    signup_issue E cleaned c = Some (iss, c1)
    ∧ users (world c1) !! iss.1 = Some (new_user cleaned)
    ∧ signup_view E req c
      = Some (render "authentication/signup.html" false, c')
    ∧ MailSendFailed (flashed c')
    ∧ users (world c') !! iss.1 = None
    ∧ ¬ email_taken (post_email cleaned) (users (world c'))
    ∧ session c' = session c
    ∧ (session c !! PENDING = None → session c' !! PENDING = None).
Proof.
  intros Hanon Hm Hform Hsmtp.
  destruct (signup_view_valid E req data cleaned c Hanon Hm Hform)
    as (s & Hs & Hview).
  destruct (signup_issue_run E cleaned c) as (s' & Hs' & Hissue).
  rewrite Hsmtp in Hview. cbv zeta in Hview.
  eexists _, _, _. split; [exact Hissue|].
  split; [apply lookup_insert_eq|].
  split; [exact Hview|].
  split; [apply elem_of_app_singleton|].
  split; [apply lookup_delete_eq|].
  split; [|done].
  intros Htaken%email_taken_insert_delete.
  by apply SignUpForm_clean_Some in Hform as [_ Hfree].
Qed.

Lemma signup_mail_failure_witness :
  ∃ iss c1 c',
    signup_issue (demo_env false) ada_post empty_ctx = Some (iss, c1)
    ∧ users (world c1) !! iss.1 = Some (new_user ada_post)
    ∧ signup_view (demo_env false) (anonymous (POST ada_post)) empty_ctx
      = Some (render "authentication/signup.html" false, c')
    ∧ MailSendFailed (flashed c')
    ∧ users (world c') !! iss.1 = None
    ∧ ¬ email_taken (post_email ada_post) (users (world c'))
    ∧ session c' = session empty_ctx
    ∧ (session empty_ctx !! PENDING = None → session c' !! PENDING = None).
Proof.
  apply (signup_mail_failure (demo_env false) (anonymous (POST ada_post))
           ada_post ada_post empty_ctx); vm_compute; reflexivity.
Defined.

(** ** Codes that are refused *)

(** A code the form refuses is answered with the form and its errors; nothing
    is flashed and nothing changes. *)
Lemma verify_malformed_code (E : Env) (req : HttpRequest string) (raw : string)
    (uid : Z) (u : User) (c : Ctx) :
  session c !! PENDING = Some uid →
  uid ≠ 0 →
  users (world c) !! uid = Some u →
  method req = POST raw →
  VerificationForm_clean raw = None →
  verify_view E req c = Some (render "authentication/verify.html" true, c).
Proof.
  intros Hp Hne Hu Hm Hform.
  rewrite (verify_view_pending E req uid u c Hp Hne Hu). by rewrite Hm, Hform.
Qed.

(** C6, as amended. On a verify request with an existing pending account and
    a code that passes the form (six digits once trimmed): when no unused
    record of that account carries the code, or the record the query returns
    is used or not before its expiry, the answer is the verification page
    with the message that the code is invalid or expired, and the accounts,
    the records and the session are what they were. *)
Theorem verify_refused (E : Env) (req : HttpRequest string) (raw cd : string)
    (uid : Z) (u : User) (c : Ctx) :
  session c !! PENDING = Some uid →
  uid ≠ 0 →
  users (world c) !! uid = Some u →
  method req = POST raw →
  VerificationForm_clean raw = Some cd →
  ((∀ i r, verifications (world c) !! i = Some r →
           user r = uid → code r = cd → is_used r = true)
   ∨ (∃ i r, first E (objects_filter uid cd (verifications (world c)))
             = Some (i, r)
             ∧ (is_used r = true
                ∨ expires_at r ≤ wall_clock E (clock_reads (world c))))) →
  ∃ c',
    verify_view E req c = Some (render "authentication/verify.html" false, c')
    ∧ InvalidOrExpiredCode (flashed c')
    ∧ users (world c') = users (world c)
    ∧ verifications (world c') = verifications (world c)
    ∧ session c' = session c.
Proof.
  intros Hp Hne Hu Hm Hform Hbad.
  rewrite (verify_view_pending E req uid u c Hp Hne Hu), Hm, Hform.
  destruct Hbad as [Hnone|(i & r & Hfirst & Hr)].
  - apply (first_filter_None E) in Hnone. rewrite Hnone.
    exists (refused 0 c). split; [done|].
    split; [apply elem_of_app_singleton|done].
  - rewrite Hfirst.
    destruct Hr as [Hused|Hexp].
    { apply first_filter_Some in Hfirst as (_ & _ & _ & Hfree). congruence. }
    rewrite bool_decide_false by lia.
    exists (refused 1 c). split; [done|].
    split; [apply elem_of_app_singleton|done].
Qed.

Lemma verify_refused_witness :
  ∃ c',
    verify_view (demo_env true) (anonymous (POST "000000")) ada_pending
    = Some (render "authentication/verify.html" false, c')
    ∧ InvalidOrExpiredCode (flashed c')
    ∧ users (world c') = users (world ada_pending)
    ∧ verifications (world c') = verifications (world ada_pending)
    ∧ session c' = session ada_pending.
Proof.
  apply (verify_refused (demo_env true) (anonymous (POST "000000"))
           "000000" "000000" 1 ada ada_pending);
    try reflexivity; [done|].
  left. intros i r Hi _ Hcode.
  change (verifications (world ada_pending))
    with ({[1 := ada_record]} : gmap Z EmailVerification) in Hi.
  apply lookup_singleton_Some in Hi as [_ <-]. discriminate Hcode.
Defined.

(** C6, as stated, fails for a code the form refuses: "12" matches no record
    of the pending account, and the answer carries the errors of the form, not
    the message that the code is invalid or expired. *)
Lemma verify_malformed_code_not_signalled :
  session ada_pending !! PENDING = Some 1
  ∧ users (world ada_pending) !! 1 = Some ada
  ∧ (∀ i r, verifications (world ada_pending) !! i = Some r →
            user r = 1 → code r = "12" → is_used r = true)
  ∧ ∃ c',
      verify_view (demo_env true) (anonymous (POST "12")) ada_pending
      = Some (render "authentication/verify.html" true, c')
      ∧ ¬ InvalidOrExpiredCode (flashed c').
Proof.
  split; [reflexivity|]. split; [reflexivity|]. split.
  - intros i r Hi _ Hcode.
    change (verifications (world ada_pending))
      with ({[1 := ada_record]} : gmap Z EmailVerification) in Hi.
    change (verifications (world ada_pending))
    with ({[1 := ada_record]} : gmap Z EmailVerification) in Hi.
  apply lookup_singleton_Some in Hi as [_ <-]. discriminate Hcode.
  - exists ada_pending. split; [reflexivity|].
    unfold InvalidOrExpiredCode, signalled. simpl. apply not_elem_of_nil.
Qed.

(** ** Several records with the same code *)

(** C7. When more than one unused record of the pending account carries the
    submitted code, the query of [verify_view] returns one of them that no
    other of them was created after; the view answers; every other record is
    afterwards what it was before, and the returned one is marked used exactly
    when it is before its expiry. *)
Theorem verify_selects_latest (E : Env) (req : HttpRequest string)
    (raw cd : string) (uid : Z) (u : User) (c : Ctx) :
  session c !! PENDING = Some uid →
  uid ≠ 0 →
  users (world c) !! uid = Some u →
  method req = POST raw →
  VerificationForm_clean raw = Some cd →
  (∃ i j ri rj,
     i ≠ j
     ∧ verifications (world c) !! i = Some ri
     ∧ verifications (world c) !! j = Some rj
     ∧ matching uid cd (i, ri) ∧ matching uid cd (j, rj)) →
  ∃ k r resp c',
    first E (objects_filter uid cd (verifications (world c))) = Some (k, r)
    ∧ verifications (world c) !! k = Some r
    ∧ matching uid cd (k, r)
    ∧ (∀ j rj, verifications (world c) !! j = Some rj →
               matching uid cd (j, rj) → created_at rj ≤ created_at r)
    ∧ verify_view E req c = Some (resp, c')
    ∧ (∀ j, j ≠ k →
            verifications (world c') !! j = verifications (world c) !! j)
    ∧ verifications (world c') !! k
      = Some (if bool_decide
                   (wall_clock E (clock_reads (world c)) < expires_at r)
              then mark_used r else r).
Proof.
  intros Hp Hne Hu Hm Hform (i & j & ri & rj & _ & Hi & _ & Hmi & _).
  destruct (first E (objects_filter uid cd (verifications (world c))))
    as [[k r]|] eqn:Hfirst.
  2:{ apply first_None in Hfirst.
      assert ((i, ri) ∈ objects_filter uid cd (verifications (world c))) as Hin
        by by apply objects_filter_elem.
      rewrite Hfirst in Hin. by apply elem_of_nil in Hin. }
  pose proof (first_elem E _ _ Hfirst) as [Hk Hmk]%objects_filter_elem.
  rewrite (verify_view_pending E req uid u c Hp Hne Hu), Hm, Hform, Hfirst.
  exists k, r.
  assert (∀ j rj, verifications (world c) !! j = Some rj →
                  matching uid cd (j, rj) → created_at rj ≤ created_at r)
    as Hlatest.
  { intros j' rj' Hj' Hmj'.
    apply (first_latest E _ (k, r) (j', rj') Hfirst).
    by apply objects_filter_elem. }
  case_bool_decide.
  - eexists _, _. repeat split; try done; try apply Hmk.
    + intros j' Hj'. simpl. by rewrite lookup_insert_ne.
    + simpl. apply lookup_insert_eq.
  - eexists _, _. repeat split; try done; apply Hmk.
Qed.

Lemma verify_selects_latest_witness :
  ∃ k r resp c',
    first (demo_env true)
      (objects_filter 1 "925814" (verifications (world ada_twice)))
    = Some (k, r)
    ∧ verifications (world ada_twice) !! k = Some r
    ∧ matching 1 "925814" (k, r)
    ∧ (∀ j rj, verifications (world ada_twice) !! j = Some rj →
               matching 1 "925814" (j, rj) → created_at rj ≤ created_at r)
    ∧ verify_view (demo_env true) (anonymous (POST "925814")) ada_twice
      = Some (resp, c')
    ∧ (∀ j, j ≠ k →
            verifications (world c') !! j
            = verifications (world ada_twice) !! j)
    ∧ verifications (world c') !! k
      = Some (if bool_decide
                   (wall_clock (demo_env true) (clock_reads (world ada_twice))
                    < expires_at r)
              then mark_used r else r).
Proof.
  apply (verify_selects_latest (demo_env true) (anonymous (POST "925814"))
           "925814" "925814" 1 ada ada_twice);
    try reflexivity; [done|].
  exists 1, 2, ada_record, ada_record_again.
  repeat split; done.
Defined.

(** In [ada_twice] the later record is the one marked used. *)
Example verify_twice_marks_second :
  ∃ c', verify_view (demo_env true) (anonymous (POST "925814")) ada_twice
        = Some (redirect "home", c')
        ∧ verifications (world c') !! 1 = Some ada_record
        ∧ verifications (world c') !! 2 = Some (mark_used ada_record_again).
Proof. eexists. split; [vm_compute; reflexivity|]. split; reflexivity. Qed.

(** ** Every view answers, and changes the database in one of four ways *)

Section Effects.

Context (E : Env).

Lemma effect_refl w : effect w w.
Proof. by apply effect_frame. Qed.

Lemma signup_view_effect req c :
  ∃ resp c', signup_view E req c = Some (resp, c')
             ∧ effect (world c) (world c').
Proof.
  destruct (request_user req) as [ru|] eqn:Hu.
  { destruct (signup_view_other E req c) as [resp Hr].
    - left. by rewrite Hu.
    - exists resp, c. split; [done|apply effect_refl]. }
  destruct (method req) as [|data] eqn:Hm.
  { destruct (signup_view_other E req c) as [resp Hr]; [by right; left|].
    exists resp, c. split; [done|apply effect_refl]. }
  destruct (SignUpForm_clean E data (users (world c))) as [cleaned|] eqn:Hf.
  2:{ destruct (signup_view_other E req c) as [resp Hr].
      - right; right. by exists data.
      - exists resp, c. split; [done|apply effect_refl]. }
  destruct (signup_view_valid E req data cleaned c Hu Hm Hf)
    as (s & Hs & Hview).
  cbv zeta in Hview.
  destruct (smtp E (mail_calls (world c))).
  - eexists _, _. split; [exact Hview|].
    by eapply (effect_signup _ _ (new_user cleaned) s).
  - eexists _, _. split; [exact Hview|].
    by eapply (effect_rollback _ _ (new_user cleaned)
                 (mkEmailVerification (next_user_id (world c)) s _ _ false)).
Qed.

Lemma verify_view_effect req c :
  ∃ resp c', verify_view E req c = Some (resp, c')
             ∧ effect (world c) (world c').
Proof.
  destruct (session c !! PENDING) as [uid|] eqn:Hp.
  2:{ eexists _, _. split; [by apply verify_view_no_pending; left|].
      apply effect_refl. }
  destruct (decide (uid = 0)) as [->|Hne].
  { eexists _, _. split; [by apply verify_view_no_pending; right|].
    apply effect_refl. }
  destruct (users (world c) !! uid) as [u|] eqn:Hu.
  2:{ eexists _, _. split; [by apply (verify_view_no_account E req uid)|].
      apply effect_refl. }
  rewrite (verify_view_pending E req uid u c Hp Hne Hu).
  destruct (method req) as [|raw].
  { eexists _, _. split; [done|apply effect_refl]. }
  destruct (VerificationForm_clean raw) as [cd|].
  2:{ eexists _, _. split; [done|apply effect_refl]. }
  destruct (first E _) as [[i r]|] eqn:Hfirst.
  2:{ eexists _, _. split; [done|]. by apply effect_frame. }
  apply first_filter_Some in Hfirst as (Hi & _).
  case_bool_decide.
  - eexists _, _. split; [done|]. by eapply (effect_verify _ _ uid u i r).
  - eexists _, _. split; [done|]. by apply effect_frame.
Qed.

Lemma login_view_effect req c :
  ∃ resp c', login_view E req c = Some (resp, c')
             ∧ effect (world c) (world c').
Proof.
  rewrite login_view_run.
  destruct (is_authenticated req).
  { eexists _, _. split; [done|apply effect_refl]. }
  destruct (method req) as [|data].
  { eexists _, _. split; [done|apply effect_refl]. }
  destruct (authenticate E _ _ _) as [[uid u]|].
  2:{ eexists _, _. split; [done|apply effect_refl]. }
  destruct (is_verified u);
    eexists _, _; (split; [done|apply effect_refl]).
Qed.

Lemma home_view_effect req c :
  ∃ resp c', home_view req c = Some (resp, c')
             ∧ effect (world c) (world c').
Proof.
  unfold home_view, login_required.
  destruct (is_authenticated req);
    eexists _, _; (split; [reflexivity|apply effect_refl]).
Qed.

Lemma logout_view_effect req c :
  ∃ resp c', logout_view req c = Some (resp, c')
             ∧ effect (world c) (world c').
Proof.
  unfold logout_view, login_required.
  destruct (is_authenticated req);
    eexists _, _; (split; [reflexivity|apply effect_refl]).
Qed.

Lemma dispatch_effect r ru c :
  ∃ resp c', dispatch E r ru c = Some (resp, c')
             ∧ effect (world c) (world c').
Proof.
  destruct r; simpl.
  - apply signup_view_effect.
  - apply verify_view_effect.
  - apply login_view_effect.
  - apply home_view_effect.
  - apply logout_view_effect.
Qed.

(** No request ends in an unhandled exception. *)
Lemma handle_total client r st : is_Some (handle E client r st).
Proof.
  unfold handle.
  destruct (dispatch_effect r
              (get_user (sys_world st) (session_of client st))
              (mkCtx (sys_world st) (session_of client st) []))
    as (resp & c' & -> & _).
  by eexists.
Qed.

Lemma handle_effect client r st resp msgs st' :
  handle E client r st = Some (resp, msgs, st') →
  effect (sys_world st) (sys_world st').
Proof.
  unfold handle.
  destruct (dispatch_effect r
              (get_user (sys_world st) (session_of client st))
              (mkCtx (sys_world st) (session_of client st) []))
    as (resp' & c' & -> & Heff).
  by intros [= <- <- <-].
Qed.

Lemma step_effect st st' :
  step E st st' → effect (sys_world st) (sys_world st').
Proof. destruct 1. by eapply handle_effect. Qed.

End Effects.

(** ** The invariant of the database *)

Section Invariant.

Context (E : Env).

Lemma wf_fresh_user w : wf w → users w !! next_user_id w = None.
Proof.
  intros Hwf. destruct (users w !! next_user_id w) as [u|] eqn:Hu; [|done].
  apply (wf_user_keys w Hwf) in Hu. lia.
Qed.

Lemma wf_fresh_record w :
  wf w → verifications w !! next_verification_id w = None.
Proof.
  intros Hwf.
  destruct (verifications w !! next_verification_id w) as [r|] eqn:Hr;
    [|done].
  apply (wf_record_keys w Hwf) in Hr. lia.
Qed.

Lemma wf_owner_below w i r :
  wf w → verifications w !! i = Some r → user r < next_user_id w.
Proof.
  intros Hwf Hi. destruct (wf_owner w Hwf i r Hi) as [u Hu].
  apply (wf_user_keys w Hwf) in Hu. lia.
Qed.

(** The cascade of a rollback removes the record of the new account and no
    other. *)
Lemma rollback_records w r :
  wf w → user r = next_user_id w →
  filter (λ kv, user kv.2 ≠ next_user_id w)
    (<[next_verification_id w := r]> (verifications w))
  = verifications w.
Proof.
  intros Hwf Hr. apply map_eq. intros i.
  apply option_eq. intros x.
  rewrite map_lookup_filter_Some, lookup_insert_Some. simpl. split.
  - intros [[[_ <-]|[_ Hi]] Hx]; [done|done].
  - intros Hi. split.
    + right. split; [|done]. intros <-.
      by rewrite (wf_fresh_record w Hwf) in Hi.
    + pose proof (wf_owner_below w i x Hwf Hi). lia.
Qed.

Lemma effect_wf w w' : wf w → effect w w' → wf w'.
Proof.
  intros Hwf [Hu Hnu Hv Hnv
             |nu s t1 t2 Ha Hver Hs Hu Hnu Hv Hnv
             |nu r Hr Hu Hnu Hv Hnv
             |uid u i r Huid Hi Hu Hnu Hv Hnv].
  - destruct Hwf. split; rewrite ?Hu, ?Hnu, ?Hv, ?Hnv; done.
  - pose proof (wf_next_user w Hwf). pose proof (wf_next_record w Hwf).
    split; rewrite ?Hu, ?Hnu, ?Hv, ?Hnv.
    + lia.
    + lia.
    + intros j x [[<- <-]|[_ Hj]]%lookup_insert_Some; [lia|].
      apply (wf_user_keys w Hwf) in Hj. lia.
    + intros j x [[<- <-]|[_ Hj]]%lookup_insert_Some; [lia|].
      apply (wf_record_keys w Hwf) in Hj. lia.
    + intros j x [[<- <-]|[_ Hj]]%lookup_insert_Some.
      * simpl. rewrite lookup_insert_eq. by eexists.
      * apply lookup_insert_is_Some'. right. by eapply wf_owner.
    + intros j k x y [[<- <-]|[Hnj Hj]]%lookup_insert_Some
                     [[<- <-]|[Hnk Hk]]%lookup_insert_Some Huser;
        simpl in Huser.
      * done.
      * pose proof (wf_owner_below w k y Hwf Hk). lia.
      * pose proof (wf_owner_below w j x Hwf Hj). lia.
      * by eapply (wf_single w Hwf).
    + intros j x [[<- <-]|[_ Hj]]%lookup_insert_Some; [done|].
      by eapply wf_codes.
    + intros j x [[<- <-]|[_ Hj]]%lookup_insert_Some; [congruence|].
      by eapply wf_flags.
  - rewrite (rollback_records w r Hwf Hr) in Hv.
    rewrite (delete_insert_id _ _ _ (wf_fresh_user w Hwf)) in Hu.
    pose proof (wf_next_user w Hwf). pose proof (wf_next_record w Hwf).
    split; rewrite ?Hu, ?Hnu, ?Hv, ?Hnv.
    + lia.
    + lia.
    + intros j x Hj. apply (wf_user_keys w Hwf) in Hj. lia.
    + intros j x Hj. apply (wf_record_keys w Hwf) in Hj. lia.
    + apply Hwf.
    + apply Hwf.
    + apply Hwf.
    + apply Hwf.
  - pose proof (wf_user_keys w Hwf uid u Huid) as Hkey.
    assert (next_user_id w' = next_user_id w) as Hnu' by lia.
    split; rewrite ?Hu, ?Hnu', ?Hv, ?Hnv.
    + apply Hwf.
    + apply Hwf.
    + intros j x [[<- <-]|[_ Hj]]%lookup_insert_Some; [done|].
      by eapply wf_user_keys.
    + intros j x [[<- <-]|[_ Hj]]%lookup_insert_Some.
      * exact (wf_record_keys w Hwf _ _ Hi).
      * exact (wf_record_keys w Hwf _ _ Hj).
    + intros j x [[<- <-]|[_ Hj]]%lookup_insert_Some;
        apply lookup_insert_is_Some'; right.
      * exact (wf_owner w Hwf _ _ Hi).
      * exact (wf_owner w Hwf _ _ Hj).
    + intros j k x y [[<- <-]|[Hnj Hj]]%lookup_insert_Some
                     [[<- <-]|[Hnk Hk]]%lookup_insert_Some Huser;
        simpl in Huser.
      * done.
      * exact (wf_single w Hwf _ _ _ _ Hi Hk Huser).
      * exact (wf_single w Hwf _ _ _ _ Hj Hi Huser).
      * exact (wf_single w Hwf _ _ _ _ Hj Hk Huser).
    + intros j x [[<- <-]|[_ Hj]]%lookup_insert_Some.
      * exact (wf_codes w Hwf _ _ Hi).
      * exact (wf_codes w Hwf _ _ Hj).
    + intros j x [[<- <-]|[_ Hj]]%lookup_insert_Some; [done|].
      exact (wf_flags w Hwf _ _ Hj).
Qed.

(** A record that is stored before a request is stored after it, with the
    same owner, code and times, and used if it was used. *)
Lemma effect_keeps w w' i r :
  wf w → effect w w' → verifications w !! i = Some r →
  ∃ r', verifications w' !! i = Some r' ∧ same_record r r'.
Proof.
  intros Hwf Heff Hi.
  destruct Heff as [_ _ Hv _
                   |nu s t1 t2 _ _ _ _ _ Hv _
                   |nu r0 Hr _ _ Hv _
                   |uid u k r0 _ Hk _ _ Hv _].
  - exists r. rewrite Hv. by repeat split.
  - exists r. rewrite Hv. split; [|by repeat split].
    rewrite lookup_insert_ne; [done|]. intros <-.
    by rewrite (wf_fresh_record w Hwf) in Hi.
  - exists r. rewrite Hv, (rollback_records w r0 Hwf Hr).
    by repeat split.
  - rewrite Hv. destruct (decide (k = i)) as [->|Hne].
    + rewrite lookup_insert_eq. eexists. split; [done|].
      rewrite Hk in Hi. injection Hi as <-. by repeat split.
    + rewrite lookup_insert_ne by done. exists r. by repeat split.
Qed.

Lemma wf_init : wf (sys_world init).
Proof. split; simpl; try lia; intros; by simplify_map_eq. Qed.

Lemma reachable_wf st : reachable E st → wf (sys_world st).
Proof.
  intros Hreach.
  apply (rtc_ind_r (R := step E) (λ st, wf (sys_world st)) init);
    [| |exact Hreach].
  - apply wf_init.
  - intros st1 st2 _ Hstep Hwf.
    eapply effect_wf; [exact Hwf|]. by apply (step_effect E).
Qed.

Lemma steps_wf st st' :
  wf (sys_world st) → rtc (step E) st st' → wf (sys_world st').
Proof.
  intros Hwf Hsteps. induction Hsteps as [|st st1 st2 Hstep _ IH]; [done|].
  apply IH. eapply effect_wf; [done|]. by eapply step_effect.
Qed.

Lemma same_record_trans r1 r2 r3 :
  same_record r1 r2 → same_record r2 r3 → same_record r1 r3.
Proof.
  intros (?&?&?&?&?) (?&?&?&?&?). repeat split; try congruence. auto.
Qed.

Lemma steps_keep st st' i r :
  wf (sys_world st) → rtc (step E) st st' →
  verifications (sys_world st) !! i = Some r →
  ∃ r', verifications (sys_world st') !! i = Some r' ∧ same_record r r'.
Proof.
  intros Hwf Hsteps. revert r.
  induction Hsteps as [st|st st1 st2 Hstep _ IH]; intros r Hi.
  - exists r. by repeat split.
  - apply step_effect in Hstep.
    destruct (effect_keeps _ _ i r Hwf Hstep Hi) as (r1 & Hi1 & Hsame1).
    destruct (IH (effect_wf _ _ Hwf Hstep) r1 Hi1) as (r2 & Hi2 & Hsame2).
    exists r2. split; [done|]. by eapply same_record_trans.
Qed.

(** An account that is stored before a request is stored after it. *)
Lemma effect_keeps_user w w' uid u :
  wf w → effect w w' → users w !! uid = Some u → is_Some (users w' !! uid).
Proof.
  intros Hwf Heff Huid.
  destruct Heff as [Hu _ _ _
                   |nu s t1 t2 _ _ _ Hu _ _ _
                   |nu r0 _ Hu _ _ _
                   |k u0 j r0 _ _ Hu _ _ _]; rewrite Hu.
  - by eexists.
  - apply lookup_insert_is_Some'. right. by eexists.
  - rewrite (delete_insert_id _ _ _ (wf_fresh_user w Hwf)). by eexists.
  - apply lookup_insert_is_Some'. right. by eexists.
Qed.

Lemma steps_keep_user st st' uid u :
  wf (sys_world st) → rtc (step E) st st' →
  users (sys_world st) !! uid = Some u →
  is_Some (users (sys_world st') !! uid).
Proof.
  intros Hwf Hsteps. revert u.
  induction Hsteps as [st|st st1 st2 Hstep _ IH]; intros u Hu.
  - by eexists.
  - apply step_effect in Hstep.
    destruct (effect_keeps_user _ _ uid u Hwf Hstep Hu) as [u1 Hu1].
    exact (IH (effect_wf _ _ Hwf Hstep) u1 Hu1).
Qed.

End Invariant.

(** ** Reachable states *)

Lemma ada_signed_up_reachable : reachable (demo_env true) ada_signed_up.
Proof.
  apply rtc_once.
  apply (step_handle _ 0%nat (Signup (POST ada_post)) init (redirect "verify")
           [(success,
             "Registration successful! Check your email for verification code.")]).
  vm_compute. reflexivity.
Qed.

(** C9. In every state the application reaches, the two flags of every account
    agree; and a request leaves an account's row as it was, or stores a new
    row with both flags false, or stores a row with both flags true: no
    reachable state holds an account that is active and not verified. *)
Theorem flags_agree (E : Env) (st : System) :
  reachable E st →
  (∀ uid u, users (sys_world st) !! uid = Some u →
            is_active u = is_verified u)
  ∧ (∀ st' uid u',
       step E st st' →
       users (sys_world st') !! uid = Some u' →
       users (sys_world st) !! uid = Some u'
       ∨ (users (sys_world st) !! uid = None
          ∧ is_active u' = false ∧ is_verified u' = false)
       ∨ (is_active u' = true ∧ is_verified u' = true)).
Proof.
  intros Hwf%reachable_wf. split; [apply Hwf|].
  intros st' uid u' Hstep%step_effect Hu'.
  destruct Hstep as [Hu _ _ _
                    |nu s t1 t2 Ha Hv _ Hu _ _ _
                    |nu r Hr Hu _ _ _
                    |k u i r Hk _ Hu _ _ _].
  - left. by rewrite <- Hu.
  - rewrite Hu in Hu'.
    apply lookup_insert_Some in Hu' as [[<- <-]|[_ Hu']]; [|by left].
    right; left. split; [by apply wf_fresh_user|done].
  - left. rewrite Hu in Hu'.
    by rewrite (delete_insert_id _ _ _ (wf_fresh_user _ Hwf)) in Hu'.
  - rewrite Hu in Hu'.
    apply lookup_insert_Some in Hu' as [[<- <-]|[_ Hu']]; [|by left].
    right; right. done.
Qed.

Lemma flags_agree_witness :
  (∀ uid u, users (sys_world ada_signed_up) !! uid = Some u →
            is_active u = is_verified u)
  ∧ (∀ st' uid u',
       step (demo_env true) ada_signed_up st' →
       users (sys_world st') !! uid = Some u' →
       users (sys_world ada_signed_up) !! uid = Some u'
       ∨ (users (sys_world ada_signed_up) !! uid = None
          ∧ is_active u' = false ∧ is_verified u' = false)
       ∨ (is_active u' = true ∧ is_verified u' = true)).
Proof.
  apply (flags_agree (demo_env true) ada_signed_up).
  apply rtc_once.
  apply (step_handle _ 0%nat (Signup (POST ada_post)) init (redirect "verify")
           [(success,
             "Registration successful! Check your email for verification code.")]).
  vm_compute. reflexivity.
Defined.

(** ** What a record keeps *)

Lemma same_record_cases r r' :
  same_record r r' → r' = r ∨ r' = mark_used r.
Proof.
  destruct r as [u cd cr ex b], r' as [u' cd' cr' ex' b'].
  unfold same_record, mark_used. simpl.
  intros (-> & -> & -> & -> & Hb).
  destruct b, b'; auto. by specialize (Hb eq_refl).
Qed.

(** C10. From a reachable state on, a stored record keeps its code, its
    creation time and its expiry time (and its owner) through every sequence
    of requests: whatever is stored under its key later is the record itself
    or the record with only [is_used] set. *)
Theorem record_fields_fixed (E : Env) (st st' : System) (i : Z)
    (r r' : EmailVerification) :
  reachable E st →
  rtc (step E) st st' →
  verifications (sys_world st) !! i = Some r →
  verifications (sys_world st') !! i = Some r' →
  code r' = code r ∧ created_at r' = created_at r
  ∧ expires_at r' = expires_at r ∧ user r' = user r
  ∧ (r' = r ∨ r' = mark_used r).
Proof.
  intros Hwf%reachable_wf Hsteps Hi Hi'.
  destruct (steps_keep E st st' i r Hwf Hsteps Hi) as (r1 & Hi1 & Hsame).
  rewrite Hi' in Hi1. injection Hi1 as <-.
  pose proof (same_record_cases r r' Hsame).
  destruct Hsame as (? & ? & ? & ? & _). by repeat split.
Qed.

(** C5, as amended. From a reachable state on, every record that is stored
    when a request begins is still stored after any sequence of requests
    (sign-ups, with or without a failing mail, verifications, logins,
    logouts), with the same owner, code and times; being used is a flag of the
    row and being expired a comparison with its expiry time. *)
Theorem stored_records_persist (E : Env) (st st' : System) (i : Z)
    (r : EmailVerification) :
  reachable E st →
  rtc (step E) st st' →
  verifications (sys_world st) !! i = Some r →
  ∃ r', verifications (sys_world st') !! i = Some r' ∧ same_record r r'.
Proof.
  intros Hwf%reachable_wf Hsteps Hi. by eapply steps_keep.
Qed.

Lemma ada_verified_step : step (demo_env true) ada_signed_up ada_verified.
Proof.
  apply (step_handle _ 0%nat (Verify (POST "925814")) ada_signed_up
           (redirect "home") [(success, "Email verified successfully!")]).
  vm_compute. reflexivity.
Qed.

Lemma record_fields_fixed_witness :
  code (mark_used ada_record) = code ada_record
  ∧ created_at (mark_used ada_record) = created_at ada_record
  ∧ expires_at (mark_used ada_record) = expires_at ada_record
  ∧ user (mark_used ada_record) = user ada_record
  ∧ (mark_used ada_record = ada_record
     ∨ mark_used ada_record = mark_used ada_record).
Proof.
  apply (record_fields_fixed (demo_env true) ada_signed_up ada_verified 1
           ada_record (mark_used ada_record)).
  - apply ada_signed_up_reachable.
  - apply rtc_once, ada_verified_step.
  - reflexivity.
  - reflexivity.
Defined.

Lemma stored_records_persist_witness :
  ∃ r', verifications (sys_world ada_verified) !! 1 = Some r'
        ∧ same_record ada_record r'.
Proof.
  apply (stored_records_persist (demo_env true) ada_signed_up ada_verified 1
           ada_record).
  - apply ada_signed_up_reachable.
  - apply rtc_once, ada_verified_step.
  - reflexivity.
Defined.

(** C5, as stated, fails: in a sign-up whose mail fails, the record that
    [EmailVerification.objects.create] has stored under key 1 is gone when the
    view answers; [user.delete()] has taken it along with the account. *)
Lemma rollback_deletes_issued_record :
  ∃ iss c1 c',
    signup_issue (demo_env false) ada_post empty_ctx = Some (iss, c1)
    ∧ pk iss.2 = Some 1
    ∧ verifications (world c1) !! 1 = Some ada_record
    ∧ signup_view (demo_env false) (anonymous (POST ada_post)) empty_ctx
      = Some (render "authentication/signup.html" false, c')
    ∧ verifications (world c') !! 1 = None
    ∧ ∃ c2, User_delete iss.1 c1 = Some (tt, c2)
            ∧ verifications (world c2) !! 1 = None.
Proof.
  eexists _, _, _. split; [vm_compute; reflexivity|].
  split; [reflexivity|]. split; [reflexivity|].
  split; [vm_compute; reflexivity|]. split; [reflexivity|].
  eexists. split; [vm_compute; reflexivity|reflexivity].
Qed.

(** ** Submitting the right code *)

Section RightCode.

Context (E : Env).

Lemma session_of_handled client w s (st : System) :
  session_of client (mkSystem w (<[client := s]> (sessions st))) = s.
Proof. unfold session_of. simpl. by rewrite lookup_insert_eq. Qed.

Lemma handle_verify client m st :
  handle E client (Verify m) st
  = match verify_view E
            (mkRequest m (get_user (sys_world st) (session_of client st)))
            (mkCtx (sys_world st) (session_of client st) []) with
    | Some (resp, c) =>
        Some (resp, flashed c,
              mkSystem (world c) (<[client := session c]> (sessions st)))
    | None => None
    end.
Proof. reflexivity. Qed.

Lemma logged_in_key uid (s : gmap string Z) :
  logged_in uid s !! SESSION_KEY = Some uid.
Proof.
  unfold logged_in. destruct (s !! SESSION_KEY); [case_decide|];
    apply lookup_insert_eq.
Qed.

Lemma logged_in_pending uid (s : gmap string Z) :
  s !! PENDING = None → logged_in uid s !! PENDING = None.
Proof.
  intros Hs. unfold logged_in.
  destruct (s !! SESSION_KEY); [case_decide|];
    rewrite lookup_insert_ne by done; by rewrite ?lookup_empty.
Qed.

(** In a state that satisfies the invariant, the query for the code of an
    unused record of the account returns that record. *)
Lemma first_own_record w i r :
  wf w → verifications w !! i = Some r → is_used r = false →
  first E (objects_filter (user r) (code r) (verifications w)) = Some (i, r).
Proof.
  intros Hwf Hi Hfree.
  destruct (first E _) as [[k r']|] eqn:Hfirst.
  - apply first_filter_Some in Hfirst as (Hk & Hu & _).
    assert (k = i) as -> by (by eapply (wf_single w Hwf)).
    congruence.
  - pose proof (proj1 (first_filter_None E _ _ _) Hfirst i r Hi eq_refl
                  eq_refl).
    congruence.
Qed.

(** In a state that satisfies the invariant, the code of a used record is
    refused, from whatever session names its account as pending. *)
Lemma handle_used_code other st i r :
  wf (sys_world st) →
  verifications (sys_world st) !! i = Some r →
  is_used r = true →
  session_of other st !! PENDING = Some (user r) →
  ∃ msgs st2,
    handle E other (Verify (POST (code r))) st
    = Some (render "authentication/verify.html" false, msgs, st2)
    ∧ InvalidOrExpiredCode msgs
    ∧ users (sys_world st2) = users (sys_world st)
    ∧ verifications (sys_world st2) = verifications (sys_world st)
    ∧ session_of other st2 = session_of other st.
Proof.
  intros Hwf Hi Hused Hp.
  destruct (wf_owner _ Hwf i r Hi) as [u Hu].
  pose proof (wf_user_keys _ Hwf _ u Hu) as Hkey.
  assert (user r ≠ 0) as Hne by lia.
  pose proof (VerificationForm_clean_six_digits (code r)
                (wf_codes _ Hwf i r Hi)) as Hform.
  set (c := mkCtx (sys_world st) (session_of other st) []).
  assert (first E (objects_filter (user r) (code r) (verifications (world c)))
          = None) as Hnone.
  { apply first_filter_None. intros j rj Hj Hju _.
    assert (j = i) as -> by exact (wf_single _ Hwf j i rj r Hj Hi Hju).
    simpl in Hj. congruence. }
  eexists _, _. split.
  - rewrite handle_verify. fold c.
    rewrite (verify_view_pending E _ (user r) u c Hp Hne Hu).
    cbn [method]. rewrite Hform, Hnone. reflexivity.
  - split; [apply elem_of_app_singleton|].
    split; [done|]. split; [done|].
    apply session_of_handled.
Qed.

End RightCode.

(** C1, as amended. In a reachable state, for a session whose pending
    identifier names an account, a verify request carrying the code of an
    unused record of that account whose expiry lies strictly in the future is
    answered with a redirect to the home page; afterwards that record and no
    other is marked used, the account is active and verified, the session has
    no pending identifier and is signed in as the account. A second request
    with the same code from the same session is then turned away for want of a
    pending verification, without the message that the code is invalid or
    expired; at any later time, from any session whose pending identifier
    names the account, it is refused with that message; neither changes the
    accounts or the records. *)
Theorem verify_right_code (E : Env) (st : System) (client : nat) (uid i : Z)
    (r : EmailVerification) :
  reachable E st →
  session_of client st !! PENDING = Some uid →
  verifications (sys_world st) !! i = Some r →
  user r = uid →
  is_used r = false →
  wall_clock E (clock_reads (sys_world st)) < expires_at r →
  ∃ u msgs st',
    users (sys_world st) !! uid = Some u
    ∧ handle E client (Verify (POST (code r))) st
      = Some (redirect "home", msgs, st')
    ∧ verifications (sys_world st')
      = <[i := mark_used r]> (verifications (sys_world st))
    ∧ users (sys_world st') = <[uid := activate u]> (users (sys_world st))
    ∧ session_of client st' !! PENDING = None
    ∧ session_of client st' !! SESSION_KEY = Some uid
    ∧ (∃ msgs2 st2,
         handle E client (Verify (POST (code r))) st'
         = Some (redirect "signup", msgs2, st2)
         ∧ NoPendingVerification msgs2
         ∧ ¬ InvalidOrExpiredCode msgs2
         ∧ users (sys_world st2) = users (sys_world st')
         ∧ verifications (sys_world st2) = verifications (sys_world st'))
    ∧ (∀ later other,
         rtc (step E) st' later →
         session_of other later !! PENDING = Some uid →
         ∃ msgs2 st2,
           handle E other (Verify (POST (code r))) later
           = Some (render "authentication/verify.html" false, msgs2, st2)
           ∧ InvalidOrExpiredCode msgs2
           ∧ users (sys_world st2) = users (sys_world later)
           ∧ verifications (sys_world st2) = verifications (sys_world later)
           ∧ session_of other st2 = session_of other later).
Proof.
  intros Hwf%reachable_wf Hp Hi Huser Hfree Hnow.
  destruct (wf_owner _ Hwf i r Hi) as [u Hu]. rewrite Huser in Hu.
  pose proof (wf_user_keys _ Hwf uid u Hu) as Hkey.
  assert (uid ≠ 0) as Hne by lia.
  pose proof (VerificationForm_clean_six_digits (code r) (wf_codes _ Hwf i r Hi))
    as Hform.
  pose proof (first_own_record E _ i r Hwf Hi Hfree) as Hfirst.
  rewrite Huser in Hfirst.
  set (c := mkCtx (sys_world st) (session_of client st) []).
  set (c' := verified uid i u r c).
  set (st' := mkSystem (world c') (<[client := session c']> (sessions st))).
  assert (handle E client (Verify (POST (code r))) st
          = Some (redirect "home", flashed c', st')) as Hhandle.
  { rewrite handle_verify. fold c.
    rewrite (verify_view_pending E _ uid u c Hp Hne Hu). cbn [method].
    rewrite Hform. change (verifications (world c))
      with (verifications (sys_world st)). rewrite Hfirst.
    by rewrite bool_decide_true. }
  assert (session_of client st' = logged_in uid (delete PENDING (session c)))
    as Hsess by apply session_of_handled.
  assert (session_of client st' !! PENDING = None) as Hp'.
  { rewrite Hsess. apply logged_in_pending, lookup_delete_eq. }
  exists u, (flashed c'), st'.
  split; [done|]. split; [done|]. split; [done|]. split; [done|].
  split; [done|].
  split; [rewrite Hsess; apply logged_in_key|].
  split.
  - eexists _, _. split.
    + rewrite handle_verify.
      rewrite verify_view_no_pending by (by left). reflexivity.
    + split; [left; apply elem_of_app_singleton|].
      split; [|done].
      unfold InvalidOrExpiredCode, signalled. simpl.
      intros Hin. apply list_elem_of_singleton in Hin. discriminate Hin.
  - intros later other Hlater Hother.
    assert (wf (sys_world st')) as Hwf'.
    { eapply effect_wf; [exact Hwf|]. by eapply handle_effect. }
    assert (verifications (sys_world st') !! i = Some (mark_used r)) as Hi'
      by apply lookup_insert_eq.
    destruct (steps_keep E st' later i (mark_used r) Hwf' Hlater Hi')
      as (r2 & Hi2 & Hu2 & Hc2 & _ & _ & Hused2).
    simpl in Hu2, Hc2. rewrite <- Hc2.
    rewrite <- Huser, <- Hu2 in Hother.
    apply (handle_used_code E other later i r2);
      [by eapply steps_wf|done|by apply Hused2|done].
Qed.

Lemma verify_right_code_witness :
  ∃ u msgs st',
    users (sys_world ada_signed_up) !! 1 = Some u
    ∧ handle (demo_env true) 0%nat (Verify (POST (code ada_record)))
        ada_signed_up
      = Some (redirect "home", msgs, st')
    ∧ verifications (sys_world st')
      = <[1 := mark_used ada_record]> (verifications (sys_world ada_signed_up))
    ∧ users (sys_world st')
      = <[1 := activate u]> (users (sys_world ada_signed_up))
    ∧ session_of 0%nat st' !! PENDING = None
    ∧ session_of 0%nat st' !! SESSION_KEY = Some 1
    ∧ (∃ msgs2 st2,
         handle (demo_env true) 0%nat (Verify (POST (code ada_record))) st'
         = Some (redirect "signup", msgs2, st2)
         ∧ NoPendingVerification msgs2
         ∧ ¬ InvalidOrExpiredCode msgs2
         ∧ users (sys_world st2) = users (sys_world st')
         ∧ verifications (sys_world st2) = verifications (sys_world st'))
    ∧ (∀ later other,
         rtc (step (demo_env true)) st' later →
         session_of other later !! PENDING = Some 1 →
         ∃ msgs2 st2,
           handle (demo_env true) other (Verify (POST (code ada_record)))
             later
           = Some (render "authentication/verify.html" false, msgs2, st2)
           ∧ InvalidOrExpiredCode msgs2
           ∧ users (sys_world st2) = users (sys_world later)
           ∧ verifications (sys_world st2) = verifications (sys_world later)
           ∧ session_of other st2 = session_of other later).
Proof.
  apply (verify_right_code (demo_env true) ada_signed_up 0%nat 1 1 ada_record).
  - apply ada_signed_up_reachable.
  - reflexivity.
  - reflexivity.
  - reflexivity.
  - reflexivity.
  - reflexivity.
Defined.

(** C1, as stated, fails in its last part: after client 0 has verified with
    the code 925814, the same request from the same session is answered with
    "No pending verification." and a redirect to the sign-up page; the message
    that the code is invalid or expired is not among the messages. *)
Lemma second_attempt_same_session :
  handle (demo_env true) 0%nat (Verify (POST "925814")) ada_signed_up
  = Some (redirect "home", [(success, "Email verified successfully!")],
          ada_verified)
  ∧ ∃ st2,
      handle (demo_env true) 0%nat (Verify (POST "925814")) ada_verified
      = Some (redirect "signup", [(error, "No pending verification.")], st2)
      ∧ ¬ InvalidOrExpiredCode [(error, "No pending verification.")].
Proof.
  split; [vm_compute; reflexivity|].
  eexists. split; [vm_compute; reflexivity|].
  unfold InvalidOrExpiredCode, signalled.
  intros Hin. apply list_elem_of_singleton in Hin. discriminate Hin.
Qed.

(** ** The domain check of the sign-up form *)

(** An address without '@' is refused. *)
Lemma clean_email_no_at (e : string) :
  e ≠ "" → Py.contains "@" e = false →
  ∃ err, clean_email e = inl err.
Proof.
  intros He Hat. unfold clean_email.
  destruct (String.eqb_spec e ""); [done|]. rewrite Hat. by eexists.
Qed.

(** A form that validates has the allowed domain as the second piece of its
    address, compared character by character. *)
Lemma SignUpForm_clean_domain (E : Env) post us cleaned :
  SignUpForm_clean E post us = Some cleaned →
  Py.contains "@" (post_email cleaned) = true
  ∧ Py.split "@" (post_email cleaned) !! 1%nat = Some ALLOWED_EMAIL_DOMAIN.
Proof.
  unfold SignUpForm_clean.
  destruct (String.eqb_spec (Py.strip (post_email post)) ""); [done|].
  case_bool_decide; [done|].
  unfold clean_email.
  destruct (String.eqb_spec (Py.strip (post_email post)) ""); [done|].
  destruct (Py.contains "@" (Py.strip (post_email post))) eqn:Hat.
  - destruct (Py.split "@" (Py.strip (post_email post)) !! 1%nat)
      as [d|] eqn:Hd; simpl.
    + destruct (String.eqb_spec d ALLOWED_EMAIL_DOMAIN) as [->|]; [|done].
      simpl. case_bool_decide; [done|].
      destruct (inherited_clean E post us); [|done].
      intros [= <-]. simpl. by rewrite Hat, Hd.
    + done.
  - done.
Qed.

(** C3: the code at the address ["x@sydney.edu.pl@y"@evil.com]. Its domain is
    evil.com; read from the first or from the last '@', the substring after
    '@' does not equal the allowed domain; and yet [clean_email] returns the
    address and the sign-up stores an account for it and mails the code there:
    [split('@')[1]] is the piece between the first two '@', not the domain.
    The same holds of [clean_email] for the unquoted
    [eve@sydney.edu.pl@evil.com]. *)
Theorem clean_email_accepts_foreign_domain :
  after_last_at eve_email = Some "evil.com"
  ∧ after_first_at eve_email ≠ Some ALLOWED_EMAIL_DOMAIN
  ∧ after_last_at eve_email ≠ Some ALLOWED_EMAIL_DOMAIN
  ∧ clean_email eve_email = inr eve_email
  ∧ clean_email "eve@sydney.edu.pl@evil.com"
    = inr "eve@sydney.edu.pl@evil.com"
  ∧ ∃ c',
      signup_view (demo_env true) (anonymous (POST eve_post)) empty_ctx
      = Some (redirect "verify", c')
      ∧ users (world c') !! 1 = Some (mkUser eve_email "eve" false false)
      ∧ mail_to <$> outbox (world c') = [eve_email].
Proof.
  split; [reflexivity|]. split; [discriminate|]. split; [discriminate|].
  split; [reflexivity|]. split; [reflexivity|].
  eexists. split; [vm_compute; reflexivity|]. split; reflexivity.
Qed.

(** For an address with a single '@', the piece [clean_email] compares is
    the substring after it. *)
Lemma split_no_at (d : string) :
  Py.contains "@" d = false → Py.split "@" d = [d].
Proof.
  induction d as [|a d IH]; simpl; [done|].
  destruct (Ascii.eqb a "@"); [done|]. intros Hd. by rewrite (IH Hd).
Qed.

Lemma split_single_at (e d : string) :
  after_first_at e = Some d → Py.contains "@" d = false →
  Py.contains "@" e = true ∧ Py.split "@" e !! 1%nat = Some d.
Proof.
  induction e as [|a e IH]; simpl; [done|].
  destruct (Ascii.eqb a "@").
  - intros [= ->] Hd. by rewrite (split_no_at d Hd).
  - intros He Hd. destruct (IH He Hd) as [Hat Hsplit]. split; [done|].
    destruct (Py.split "@" e) as [|piece rest]; [done|]. exact Hsplit.
Qed.

Lemma clean_email_single_at (e d : string) :
  after_first_at e = Some d → Py.contains "@" d = false →
  clean_email e = inr e ↔ d = ALLOWED_EMAIL_DOMAIN.
Proof.
  intros He Hd. destruct (split_single_at e d He Hd) as [Hat Hsplit].
  unfold clean_email.
  destruct (String.eqb_spec e "") as [->|_]; [done|].
  rewrite Hat, Hsplit. simpl.
  destruct (String.eqb_spec d ALLOWED_EMAIL_DOMAIN); simpl; split; done.
Qed.

(** * Further properties of the views and the models *)

(** ** Every view does one of seven things *)

Section Outcome.

Context (E : Env).

Lemma outcome_refl c : outcome E c c.
Proof. by apply outcome_quiet. Qed.

Lemma signup_view_outcome req c resp c' :
  signup_view E req c = Some (resp, c') → outcome E c c'.
Proof.
  destruct (request_user req) as [ru|] eqn:Hu.
  { destruct (signup_view_other E req c) as [resp' ->].
    - left. by rewrite Hu.
    - intros [= _ <-]. apply outcome_refl. }
  destruct (method req) as [|data] eqn:Hm.
  { destruct (signup_view_other E req c) as [resp' ->]; [by right; left|].
    intros [= _ <-]. apply outcome_refl. }
  destruct (SignUpForm_clean E data (users (world c))) as [cleaned|] eqn:Hf.
  2:{ destruct (signup_view_other E req c) as [resp' ->].
      - right; right. by exists data.
      - intros [= _ <-]. apply outcome_refl. }
  destruct (signup_view_valid E req data cleaned c Hu Hm Hf)
    as (s & Hs & ->).
  cbv zeta.
  destruct (smtp E (mail_calls (world c))) eqn:Hsmtp; intros [= _ <-].
  - by eapply (outcome_signed_up _ _ _ data cleaned s).
  - by eapply (outcome_rolled_back _ _ _ data cleaned s).
Qed.

Lemma verify_view_outcome req c resp c' :
  verify_view E req c = Some (resp, c') → outcome E c c'.
Proof.
  destruct (session c !! PENDING) as [uid|] eqn:Hp.
  2:{ rewrite verify_view_no_pending by (by left).
      intros [= _ <-]. by apply outcome_quiet. }
  destruct (decide (uid = 0)) as [->|Hne].
  { rewrite verify_view_no_pending by (by right).
    intros [= _ <-]. by apply outcome_quiet. }
  destruct (users (world c) !! uid) as [u|] eqn:Hu.
  2:{ rewrite (verify_view_no_account E req uid c Hp Hne Hu).
      intros [= _ <-]. by apply outcome_quiet. }
  rewrite (verify_view_pending E req uid u c Hp Hne Hu).
  destruct (method req) as [|raw].
  { intros [= _ <-]. apply outcome_refl. }
  destruct (VerificationForm_clean raw) as [cd|].
  2:{ intros [= _ <-]. apply outcome_refl. }
  destruct (first E _) as [[i r]|] eqn:Hfirst.
  2:{ intros [= _ <-]. by apply outcome_quiet. }
  apply first_filter_Some in Hfirst as (Hi & Hur & _ & Hfree).
  case_bool_decide; intros [= _ <-].
  - by eapply (outcome_verified _ _ _ uid u i r).
  - by apply outcome_quiet.
Qed.

Lemma login_view_outcome req c resp c' :
  login_view E req c = Some (resp, c') → outcome E c c'.
Proof.
  rewrite login_view_run.
  destruct (is_authenticated req).
  { intros [= _ <-]. apply outcome_refl. }
  destruct (method req) as [|data].
  { intros [= _ <-]. apply outcome_refl. }
  destruct (authenticate E _ _ _) as [[uid u]|] eqn:Hauth.
  2:{ intros [= _ <-]. apply outcome_refl. }
  destruct (is_verified u) eqn:Hv; intros [= _ <-].
  - by eapply (outcome_welcomed _ _ _ data uid u).
  - by eapply (outcome_sent_to_verify _ _ _ data uid u).
Qed.

Lemma home_view_outcome req c resp c' :
  home_view req c = Some (resp, c') → outcome E c c'.
Proof.
  unfold home_view, login_required.
  destruct (is_authenticated req); intros [= _ <-]; apply outcome_refl.
Qed.

Lemma logout_view_outcome req c resp c' :
  logout_view req c = Some (resp, c') → outcome E c c'.
Proof.
  unfold logout_view, login_required.
  destruct (is_authenticated req); intros [= _ <-].
  - by apply outcome_logged_out.
  - apply outcome_refl.
Qed.

Lemma dispatch_outcome r ru c resp c' :
  dispatch E r ru c = Some (resp, c') → outcome E c c'.
Proof.
  destruct r; simpl.
  - apply signup_view_outcome.
  - apply verify_view_outcome.
  - apply login_view_outcome.
  - apply home_view_outcome.
  - apply logout_view_outcome.
Qed.

Lemma handle_outcome client r st resp msgs st' :
  handle E client r st = Some (resp, msgs, st') →
  ∃ c', outcome E (mkCtx (sys_world st) (session_of client st) []) c'
        ∧ st' = mkSystem (world c') (<[client := session c']> (sessions st)).
Proof.
  unfold handle.
  destruct (dispatch E r _ _) as [[resp' c']|] eqn:Hd; [|done].
  intros [= _ _ <-]. exists c'. split; [|done].
  by eapply dispatch_outcome.
Qed.

End Outcome.

(** ** The database stays consistent *)

Section Consistency.

Context (E : Env).

Lemma consistent_ext w w' :
  users w' = users w → verifications w' = verifications w →
  outbox w' = outbox w → consistent w → consistent w'.
Proof.
  intros Hu Hv Ho [H1 H2 H3 H4].
  split; rewrite ?Hu, ?Hv, ?Ho; done.
Qed.

Lemma consistent_signed_up c cleaned s :
  wf (world c) → consistent (world c) →
  ¬ email_taken (post_email cleaned) (users (world c)) →
  consistent
    (world (delivered (next_user_id (world c)) (signup_mail cleaned s)
              (issued E (next_user_id (world c)) s (enrolled cleaned c)))).
Proof.
  intros Hwf [Huniq Hrec Hused Hmail] Hfree.
  pose proof (wf_fresh_user _ Hwf) as Hnu.
  pose proof (wf_fresh_record _ Hwf) as Hnv.
  split; simpl.
  - intros i j u u' [[<- <-]|[Hni Hi]]%lookup_insert_Some
                    [[<- <-]|[Hnj Hj]]%lookup_insert_Some He.
    + done.
    + destruct Hfree. by exists j, u'.
    + destruct Hfree. by exists i, u.
    + by eapply Huniq.
  - intros uid u [[<- <-]|[Hne Hu]]%lookup_insert_Some.
    + eexists _, _. split; [apply lookup_insert_eq|done].
    + destruct (Hrec uid u Hu) as (i & r & Hi & Hr).
      exists i, r. split; [|done].
      rewrite lookup_insert_ne; [done|]. intros <-. congruence.
  - intros i r u [[<- <-]|[Hne Hi]]%lookup_insert_Some; simpl.
    + rewrite lookup_insert_eq. by intros [= <-].
    + pose proof (wf_owner_below _ i r Hwf Hi).
      rewrite lookup_insert_ne by lia. by apply (Hused i).
  - intros m [Hm| ->%list_elem_of_singleton]%elem_of_app.
    + destruct (Hmail m Hm) as (uid & u & i & r & Hu & He & Hi & Hr & Hc).
      exists uid, u, i, r. repeat split; try done.
      * rewrite lookup_insert_ne; [done|]. intros <-. congruence.
      * rewrite lookup_insert_ne; [done|]. intros <-. congruence.
    + eexists _, _, _, _. split; [apply lookup_insert_eq|].
      split; [done|]. split; [apply lookup_insert_eq|done].
Qed.

Lemma consistent_verified c uid u i r :
  wf (world c) → consistent (world c) →
  users (world c) !! uid = Some u →
  verifications (world c) !! i = Some r →
  user r = uid →
  consistent (world (verified uid i u r c)).
Proof.
  intros Hwf [Huniq Hrec Hused Hmail] Hu Hi Hr.
  split; simpl.
  - intros j k x y [[<- <-]|[Hnj Hj]]%lookup_insert_Some
                    [[<- <-]|[Hnk Hk]]%lookup_insert_Some He; simpl in He.
    + done.
    + by eapply Huniq.
    + by eapply Huniq.
    + by eapply Huniq.
  - intros k x Hk.
    assert (is_Some (users (world c) !! k)) as [y Hy].
    { apply lookup_insert_Some in Hk as [[<- _]|[_ Hk]]; by eexists. }
    destruct (Hrec k y Hy) as (j & rj & Hj & Hrj).
    destruct (decide (i = j)) as [<-|Hne].
    + exists i, (mark_used r). split; [apply lookup_insert_eq|].
      simpl. congruence.
    + exists j, rj. by rewrite lookup_insert_ne.
  - intros j rj x [[<- <-]|[Hnj Hj]]%lookup_insert_Some; simpl.
    + rewrite Hr, lookup_insert_eq. by intros [= <-].
    + destruct (decide (user rj = uid)) as [Heq|Hneq].
      * destruct Hnj. symmetry.
        apply (wf_single _ Hwf j i rj r Hj Hi). congruence.
      * rewrite lookup_insert_ne by done. by apply (Hused j).
  - intros m Hm.
    destruct (Hmail m Hm) as (k & x & j & rj & Hk & He & Hj & Hrj & Hc).
    assert (∃ x', <[uid := activate u]> (users (world c)) !! k = Some x'
                  ∧ email x' = mail_to m) as (x' & Hk' & He').
    { destruct (decide (uid = k)) as [->|Hne].
      - exists (activate u). split; [apply lookup_insert_eq|].
        simpl. congruence.
      - exists x. by rewrite lookup_insert_ne. }
    assert (∃ rj', <[i := mark_used r]> (verifications (world c)) !! j
                   = Some rj' ∧ user rj' = k ∧ code rj' = mail_code m)
      as (rj' & Hj' & Hrj' & Hc').
    { destruct (decide (i = j)) as [->|Hne].
      - exists (mark_used r). split; [apply lookup_insert_eq|].
        simpl. split; congruence.
      - exists rj. by rewrite lookup_insert_ne. }
    by exists k, x', j, rj'.
Qed.

Lemma outcome_consistent c c' :
  wf (world c) → outcome E c c' → consistent (world c) →
  consistent (world c').
Proof.
  intros Hwf Hout Hcons.
  destruct Hout as [Hu _ Hv _ Ho _ _ _
                   |data cleaned s Hf _ _ ->
                   |data cleaned s Hf _ _ ->
                   |uid u i r _ _ Hu Hi Hr _ _ ->
                   |data uid u _ _ ->
                   |data uid u _ _ ->
                   |Hw _].
  - by eapply consistent_ext.
  - apply consistent_signed_up; [done..|].
    by apply SignUpForm_clean_Some in Hf as [_ ?].
  - eapply consistent_ext; [..|exact Hcons]; simpl.
    + apply delete_insert_id, wf_fresh_user, Hwf.
    + by apply (rollback_records (world c)).
    + done.
  - by apply consistent_verified.
  - done.
  - done.
  - by rewrite Hw.
Qed.

Lemma consistent_init : consistent (sys_world init).
Proof.
  split; simpl; intros; try by simplify_map_eq.
  by apply elem_of_nil in H.
Qed.

Lemma step_consistent st st' :
  wf (sys_world st) → step E st st' →
  consistent (sys_world st) → consistent (sys_world st').
Proof.
  intros Hwf Hstep Hcons. destruct Hstep as [client r st resp msgs st' Hh].
  apply handle_outcome in Hh as (c' & Hout & ->). simpl.
  by apply (outcome_consistent
              (mkCtx (sys_world st) (session_of client st) []) c' Hwf Hout).
Qed.

Lemma reachable_consistent st : reachable E st → consistent (sys_world st).
Proof.
  intros Hreach.
  assert (wf (sys_world st) ∧ consistent (sys_world st)) as [_ ?]; [|done].
  apply (rtc_ind_r (R := step E)
           (λ st, wf (sys_world st) ∧ consistent (sys_world st)) init);
    [| |exact Hreach].
  - split; [apply wf_init|apply consistent_init].
  - intros st1 st2 _ Hstep [Hwf Hcons]. split.
    + eapply effect_wf; [exact Hwf|]. by apply (step_effect E).
    + by eapply step_consistent.
Qed.

End Consistency.

(** ** The sessions stay sound *)

Section Sessions.

Context (E : Env).

(** An account that is stored before a request is stored after it, with the
    same address and user name, and verified if it was. *)
Lemma effect_keeps_account w w' uid u :
  wf w → effect w w' → users w !! uid = Some u →
  ∃ u', users w' !! uid = Some u' ∧ email u' = email u
        ∧ username u' = username u
        ∧ (is_verified u = true → is_verified u' = true).
Proof.
  intros Hwf Heff Huid.
  destruct Heff as [Hu _ _ _
                   |nu s t1 t2 _ _ _ Hu _ _ _
                   |nu r0 _ Hu _ _ _
                   |k u0 j r0 Hk _ Hu _ _ _]; rewrite Hu.
  - by exists u.
  - exists u. split; [|done]. rewrite lookup_insert_ne; [done|].
    intros <-. by rewrite (wf_fresh_user w Hwf) in Huid.
  - exists u. by rewrite (delete_insert_id _ _ _ (wf_fresh_user w Hwf)).
  - destruct (decide (k = uid)) as [->|Hne].
    + exists (activate u0). rewrite lookup_insert_eq.
      rewrite Hk in Huid. injection Huid as <-. done.
    + exists u. by rewrite lookup_insert_ne.
Qed.

Lemma steps_keep_account st st' uid u :
  wf (sys_world st) → rtc (step E) st st' →
  users (sys_world st) !! uid = Some u →
  ∃ u', users (sys_world st') !! uid = Some u' ∧ email u' = email u
        ∧ username u' = username u
        ∧ (is_verified u = true → is_verified u' = true).
Proof.
  intros Hwf Hsteps. revert u.
  induction Hsteps as [st|st st1 st2 Hstep _ IH]; intros u Hu.
  - by exists u.
  - apply step_effect in Hstep.
    destruct (effect_keeps_account _ _ uid u Hwf Hstep Hu)
      as (u1 & Hu1 & He1 & Hn1 & Hv1).
    destruct (IH (effect_wf _ _ Hwf Hstep) u1 Hu1)
      as (u2 & Hu2 & He2 & Hn2 & Hv2).
    exists u2. repeat split; [done|congruence|congruence|auto].
Qed.

Lemma session_ok_effect w w' s :
  wf w → effect w w' → session_ok w s → session_ok w' s.
Proof.
  intros Hwf Heff Hok uid. destruct (Hok uid) as [Hkey Hpend]. split.
  - intros (u & Hu & Hv)%Hkey.
    destruct (effect_keeps_account w w' uid u Hwf Heff Hu)
      as (u' & Hu' & _ & _ & Hv').
    exists u'. auto.
  - intros [u Hu]%Hpend. by eapply effect_keeps_user.
Qed.

Lemma session_ok_empty w : session_ok w ∅.
Proof. intros uid. split; by rewrite lookup_empty. Qed.

Lemma logged_in_pending_Some uid (s : gmap string Z) x :
  logged_in uid s !! PENDING = Some x → s !! PENDING = Some x.
Proof.
  unfold logged_in.
  destruct (s !! SESSION_KEY); [case_decide|];
    rewrite lookup_insert_ne by done; by rewrite ?lookup_empty.
Qed.

Lemma session_ok_logged_in w uid u (s : gmap string Z) :
  users w !! uid = Some u → is_verified u = true →
  session_ok w s → session_ok w (logged_in uid s).
Proof.
  intros Hu Hv Hok uid'. split.
  - rewrite logged_in_key. intros [= <-]. by exists u.
  - intros Hp%logged_in_pending_Some. by apply (Hok uid').
Qed.

Lemma session_ok_pending w uid (s : gmap string Z) :
  is_Some (users w !! uid) → session_ok w s →
  session_ok w (<[PENDING := uid]> s).
Proof.
  intros Hu Hok uid'. split.
  - rewrite lookup_insert_ne by done. apply (Hok uid').
  - rewrite lookup_insert_eq. by intros [= <-].
Qed.

Lemma session_ok_delete w k (s : gmap string Z) :
  session_ok w s → session_ok w (delete k s).
Proof.
  intros Hok uid. split.
  - intros [_ Hs]%lookup_delete_Some. by apply (Hok uid).
  - intros [_ Hs]%lookup_delete_Some. by apply (Hok uid).
Qed.

Lemma outcome_effect c c' :
  wf (world c) → outcome E c c' → effect (world c) (world c').
Proof.
  intros Hwf Hout.
  destruct Hout as [Hu Hnu Hv Hnv _ _ _ _
                   |data cleaned s Hf Hs _ ->
                   |data cleaned s Hf Hs _ ->
                   |uid u i r _ _ Hu Hi _ _ _ ->
                   |data uid u _ _ ->
                   |data uid u _ _ ->
                   |Hw _].
  - by apply effect_frame.
  - by eapply (effect_signup _ _ (new_user cleaned) s).
  - by eapply (effect_rollback _ _ (new_user cleaned)
                 (mkEmailVerification (next_user_id (world c)) s _ _ false)).
  - by eapply (effect_verify _ _ uid u i r).
  - apply effect_refl.
  - apply effect_refl.
  - rewrite Hw. apply effect_refl.
Qed.

Lemma outcome_session_ok c c' :
  authenticate_sound E → wf (world c) → outcome E c c' →
  session_ok (world c) (session c) → session_ok (world c') (session c').
Proof.
  intros Hsound Hwf Hout Hok.
  pose proof (session_ok_effect _ _ _ Hwf (outcome_effect c c' Hwf Hout) Hok)
    as Hok'.
  destruct Hout as [_ _ _ _ _ _ _ Hs
                   |data cleaned s Hf _ _ ->
                   |data cleaned s Hf _ _ ->
                   |uid u i r _ _ Hu Hi _ _ _ ->
                   |data uid u Hauth _ ->
                   |data uid u Hauth Hv ->
                   |_ Hs].
  - by rewrite Hs.
  - apply session_ok_pending; [|exact Hok'].
    simpl. rewrite lookup_insert_eq. by eexists.
  - exact Hok'.
  - apply (session_ok_logged_in _ uid (activate u)).
    + simpl. apply lookup_insert_eq.
    + done.
    + apply session_ok_delete. exact Hok'.
  - apply session_ok_pending; [|exact Hok'].
    apply Hsound in Hauth. by eexists.
  - apply (session_ok_logged_in _ uid u); [|done|exact Hok'].
    by apply Hsound in Hauth.
  - rewrite Hs. apply session_ok_empty.
Qed.

Lemma step_sessions_sound st st' :
  authenticate_sound E → wf (sys_world st) → step E st st' →
  sessions_sound st → sessions_sound st'.
Proof.
  intros Hsound Hwf Hstep Hss.
  destruct Hstep as [client r st resp msgs st' Hh].
  pose proof (handle_effect E _ _ _ _ _ _ Hh) as Heff.
  apply handle_outcome in Hh as (c' & Hout & ->). simpl in Heff.
  intros client2 s2. simpl.
  intros [[<- <-]|[Hne Hs2]]%lookup_insert_Some.
  - apply (outcome_session_ok
             (mkCtx (sys_world st) (session_of client st) []) c' Hsound Hwf
             Hout).
    simpl. unfold session_of.
    destruct (sessions st !! client) as [s|] eqn:Hs; simpl.
    + by apply (Hss client).
    + apply session_ok_empty.
  - eapply session_ok_effect; [exact Hwf|exact Heff|].
    by apply (Hss client2).
Qed.

Lemma reachable_sessions_sound st :
  authenticate_sound E → reachable E st → sessions_sound st.
Proof.
  intros Hsound Hreach.
  assert (wf (sys_world st) ∧ sessions_sound st) as [_ ?]; [|done].
  apply (rtc_ind_r (R := step E)
           (λ st, wf (sys_world st) ∧ sessions_sound st) init);
    [| |exact Hreach].
  - split; [apply wf_init|]. intros client s Hs. simpl in Hs.
    by rewrite lookup_empty in Hs.
  - intros st1 st2 _ Hstep [Hwf Hss]. split.
    + eapply effect_wf; [exact Hwf|]. by apply (step_effect E).
    + by eapply step_sessions_sound.
Qed.

End Sessions.

(** ** Codes, records and the forms *)

(** X1. Every code [generate_code] returns passes [VerificationForm]
    unchanged: the field's length limits and [clean_code] accept it as it
    is. *)
Theorem generated_code_passes_form (E : Env) (c : Ctx) :
  ∃ s c',
    generate_code E c = Some (s, c')
    ∧ clean_code s = inr s
    ∧ VerificationForm_clean s = Some s.
Proof.
  destruct (generate_code_run E c) as (s & Hs & Hlen & Hdig).
  exists s, (drawn 6 c). split; [done|].
  split; [|by apply VerificationForm_clean_six_digits].
  destruct s as [|a s]; [done|].
  unfold clean_code. change (String a s =? "")%string with false.
  assert (Py.isdigit (String a s) = true) as ->; [|done].
  unfold Py.isdigit. eapply all_chars_impl; [|exact Hdig].
  apply decimal_isdigit_char.
Qed.




(** X4. Saving an object as it was loaded, its code not empty, writes back
    what is stored: the database, the session and the messages are exactly
    what they were, and neither the clock nor the random generator is
    called. *)
Theorem save_loaded_is_identity (E : Env) (i : Z) (r : EmailVerification)
    (c : Ctx) :
  verifications (world c) !! i = Some r →
  code r ≠ "" →
  save E (from_db i r) c = Some (from_db i r, c).
Proof.
  intros Hi Hcode%String.eqb_neq.
  unfold from_db. erewrite save_loaded_run; [|exact Hi|exact Hcode].
  do 2 f_equal.
  destruct c as [[us nu vs nv ob cl rn ml] se fl], r as [u cd cr ex b].
  simpl in *. unfold set_verifications. simpl.
  by rewrite (insert_id vs i _ Hi).
Qed.

Lemma save_loaded_is_identity_witness :
  save (demo_env true) (from_db 1 ada_record) ada_pending
  = Some (from_db 1 ada_record, ada_pending).
Proof.
  apply (save_loaded_is_identity (demo_env true) 1 ada_record ada_pending);
    [reflexivity|discriminate].
Defined.

(** X5. Saving a loaded object whose code is empty does not keep the row:
    [save] draws six random numbers and stores a code of six digits in its
    place, leaving owner, times and the used flag alone. *)
Theorem save_loaded_empty_code_regenerates (E : Env) (i : Z)
    (r : EmailVerification) (c : Ctx) :
  verifications (world c) !! i = Some r →
  code r = "" →
  ∃ s o' c',
    save E (from_db i r) c = Some (o', c')
    ∧ six_digits s
    ∧ verifications (world c')
      = <[i := mkEmailVerification (user r) s (created_at r) (expires_at r)
                 (is_used r)]> (verifications (world c))
    ∧ rng_calls (world c') = (6 + rng_calls (world c))%nat.
Proof.
  intros Hi Hcode.
  destruct (generate_code_run E c) as (s & Hs & Hlen & Hdig).
  exists s. eexists _, _. split.
  - unfold save, from_db. simpl. rewrite Hcode. simpl.
    unfold mbind at 1, M_bind at 1. rewrite Hs.
    unfold super_save. run. rewrite Hi. reflexivity.
  - by repeat split.
Qed.

Lemma save_loaded_empty_code_regenerates_witness :
  ∃ s o' c',
    save (demo_env true) (from_db 1 blank_record) blank_ctx = Some (o', c')
    ∧ six_digits s
    ∧ verifications (world c')
      = <[1 := mkEmailVerification (user blank_record) s
                 (created_at blank_record) (expires_at blank_record)
                 (is_used blank_record)]> (verifications (world blank_ctx))
    ∧ rng_calls (world c') = (6 + rng_calls (world blank_ctx))%nat.
Proof.
  apply (save_loaded_empty_code_regenerates (demo_env true) 1 blank_record
           blank_ctx); reflexivity.
Defined.

(** X6. The verification form accepts exactly the inputs whose trimmed value
    has six characters, all of them digits in the sense of [str.isdigit], and
    its cleaned code is the trimmed value. *)
Theorem VerificationForm_accepts_iff (raw c : string) :
  VerificationForm_clean raw = Some c
  ↔ c = Py.strip raw ∧ String.length c = 6%nat ∧ Py.isdigit c = true.
Proof.
  unfold VerificationForm_clean, clean_code. split.
  - destruct (String.eqb_spec (Py.strip raw) "") as [|Hne]; [done|].
    repeat case_bool_decide; try done. simpl.
    destruct (Py.isdigit (Py.strip raw)) eqn:Hd; simpl; [|done].
    intros [= <-]. repeat split; [lia|done].
  - intros (-> & Hlen & Hd).
    destruct (String.eqb_spec (Py.strip raw) "") as [He|Hne].
    { rewrite He in Hlen. done. }
    rewrite !bool_decide_false by lia. simpl. by rewrite Hd.
Qed.

Lemma after_first_at_app (local d : string) :
  Py.contains "@" local = false →
  after_first_at (local +:+ "@" +:+ d) = Some d.
Proof.
  induction local as [|a local IH]; simpl; [done|].
  destruct (Ascii.eqb a "@"); [done|]. exact IH.
Qed.

(** [clean_email] raises or returns the address it was given. *)
Lemma clean_email_result (e : string) :
  (∃ err, clean_email e = inl err) ∨ clean_email e = inr e.
Proof.
  unfold clean_email. destruct (e =? "")%string; [by right|].
  destruct (negb _); [left; by eexists|by right].
Qed.

(** X7. For an address with exactly one '@', [clean_email] returns the address
    exactly when what follows the '@' is the allowed domain, character for
    character; otherwise it raises. *)
Theorem clean_email_one_at (local d : string) :
  Py.contains "@" local = false →
  Py.contains "@" d = false →
  (clean_email (local +:+ "@" +:+ d) = inr (local +:+ "@" +:+ d)
   ↔ d = ALLOWED_EMAIL_DOMAIN)
  ∧ (d ≠ ALLOWED_EMAIL_DOMAIN →
     ∃ err, clean_email (local +:+ "@" +:+ d) = inl err).
Proof.
  intros Hl Hd.
  pose proof (clean_email_single_at _ d (after_first_at_app local d Hl) Hd)
    as Hiff.
  split; [exact Hiff|].
  intros Hne.
  destruct (clean_email_result (local +:+ "@" +:+ d)) as [Herr|Hok];
    [exact Herr|].
  destruct Hne. by apply Hiff.
Qed.

Lemma clean_email_one_at_witness :
  (clean_email ("user" +:+ "@" +:+ "SYDNEY.EDU.PL")
   = inr ("user" +:+ "@" +:+ "SYDNEY.EDU.PL")
   ↔ "SYDNEY.EDU.PL" = ALLOWED_EMAIL_DOMAIN)
  ∧ ("SYDNEY.EDU.PL" ≠ ALLOWED_EMAIL_DOMAIN →
     ∃ err, clean_email ("user" +:+ "@" +:+ "SYDNEY.EDU.PL") = inl err).
Proof.
  apply (clean_email_one_at "user" "SYDNEY.EDU.PL"); reflexivity.
Defined.



(** X9. A sign-up whose trimmed address does not have the allowed domain as
    the piece after its first '@' (no '@' at all, another domain, another
    case) is answered with the form and its errors, and nothing changes: no
    account, no record, no mail, no pending identifier. *)
Theorem signup_wrong_domain_changes_nothing (E : Env)
    (req : HttpRequest SignUpPost) (data : SignUpPost) (c : Ctx) :
  request_user req = None →
  method req = POST data →
  Py.split "@" (Py.strip (post_email data)) !! 1%nat
  ≠ Some ALLOWED_EMAIL_DOMAIN →
  signup_view E req c = Some (render "authentication/signup.html" true, c).
Proof.
  intros Hanon Hm Hdom.
  assert (SignUpForm_clean E data (users (world c)) = None) as Hform.
  { destruct (SignUpForm_clean E data (users (world c))) as [cleaned|] eqn:Hf;
      [|done].
    pose proof (SignUpForm_clean_domain E _ _ _ Hf) as [_ Hd].
    pose proof (SignUpForm_clean_Some E _ _ _ Hf) as [Hc _].
    assert (post_email cleaned = Py.strip (post_email data)) as He.
    { unfold clean_email in Hc. destruct (_ =? "")%string; [by injection Hc|].
      destruct (negb _); [done|]. by injection Hc. }
    rewrite He in Hd. done. }
  unfold signup_view, is_authenticated. rewrite Hanon, Hm.
  rewrite bool_decide_false by (by intros [? ?]).
  run. rewrite Hform. by destruct c.
Qed.

Lemma signup_wrong_domain_changes_nothing_witness :
  signup_view (demo_env true) (anonymous (POST gmail_post)) empty_ctx
  = Some (render "authentication/signup.html" true, empty_ctx).
Proof.
  apply (signup_wrong_domain_changes_nothing (demo_env true)
           (anonymous (POST gmail_post)) gmail_post empty_ctx);
    [reflexivity|reflexivity|discriminate].
Defined.

(** X10. A sign-up with a valid form whose mail goes out stores the account
    inactive and unverified under the next key, stores one unused record for
    it with a code of six digits that expires thirty minutes after the clock
    reading of [save], hands over one mail with that code to that address,
    sets the session's pending identifier to the account's key, and redirects
    to the verification page. *)
Theorem signup_success (E : Env) (req : HttpRequest SignUpPost)
    (data cleaned : SignUpPost) (c : Ctx) :
  request_user req = None →
  method req = POST data →
  SignUpForm_clean E data (users (world c)) = Some cleaned →
  smtp E (mail_calls (world c)) = true →
  ∃ s c',
    six_digits s
    ∧ signup_view E req c = Some (redirect "verify", c')
    ∧ users (world c')
      = <[next_user_id (world c) :=
            mkUser (post_email cleaned) (post_username cleaned) false false]>
          (users (world c))
    ∧ verifications (world c')
      = <[next_verification_id (world c) :=
            mkEmailVerification (next_user_id (world c)) s
              (wall_clock E (S (clock_reads (world c))))
              (wall_clock E (clock_reads (world c)) + 30 * 60 * 1000000)
              false]>
          (verifications (world c))
    ∧ outbox (world c')
      = (outbox (world c)
         ++ [mkMail (post_email cleaned) "Verify your email - Demo App"
               (post_username cleaned) s])%list
    ∧ session c' = <[PENDING := next_user_id (world c)]> (session c)
    ∧ next_user_id (world c') = next_user_id (world c) + 1
    ∧ next_verification_id (world c') = next_verification_id (world c) + 1.
Proof.
  intros Hanon Hm Hform Hsmtp.
  destruct (signup_view_valid E req data cleaned c Hanon Hm Hform)
    as (s & Hs & Hview).
  rewrite Hsmtp in Hview. cbv zeta in Hview.
  exists s. eexists. split; [done|]. split; [exact Hview|].
  by repeat split.
Qed.

Lemma signup_success_witness :
  ∃ s c',
    six_digits s
    ∧ signup_view (demo_env true) (anonymous (POST ada_post)) empty_ctx
      = Some (redirect "verify", c')
    ∧ users (world c')
      = <[next_user_id (world empty_ctx) :=
            mkUser (post_email ada_post) (post_username ada_post) false
              false]>
          (users (world empty_ctx))
    ∧ verifications (world c')
      = <[next_verification_id (world empty_ctx) :=
            mkEmailVerification (next_user_id (world empty_ctx)) s
              (wall_clock (demo_env true) (S (clock_reads (world empty_ctx))))
              (wall_clock (demo_env true) (clock_reads (world empty_ctx))
               + 30 * 60 * 1000000)
              false]>
          (verifications (world empty_ctx))
    ∧ outbox (world c')
      = (outbox (world empty_ctx)
         ++ [mkMail (post_email ada_post) "Verify your email - Demo App"
               (post_username ada_post) s])%list
    ∧ session c' = <[PENDING := next_user_id (world empty_ctx)]>
                     (session empty_ctx)
    ∧ next_user_id (world c') = next_user_id (world empty_ctx) + 1
    ∧ next_verification_id (world c')
      = next_verification_id (world empty_ctx) + 1.
Proof.
  apply (signup_success (demo_env true) (anonymous (POST ada_post)) ada_post
           ada_post empty_ctx); vm_compute; reflexivity.
Defined.

(** ** [verify_view] *)

(** X11. A verify request from a session that has no pending identifier, or
    the identifier 0, or one that names no stored account, is redirected to
    the sign-up page with an error message, whatever its method and whatever
    code it carries; the database and the session are what they were. *)
Theorem verify_without_pending_account (E : Env) (req : HttpRequest string)
    (c : Ctx) :
  (session c !! PENDING = None
   ∨ session c !! PENDING = Some 0
   ∨ ∃ uid, session c !! PENDING = Some uid
            ∧ users (world c) !! uid = None) →
  ∃ c',
    verify_view E req c = Some (redirect "signup", c')
    ∧ NoPendingVerification (flashed c')
    ∧ world c' = world c
    ∧ session c' = session c.
Proof.
  intros [Hp|[Hp|(uid & Hp & Hu)]].
  - eexists. split; [by apply verify_view_no_pending; left|].
    split; [left; apply elem_of_app_singleton|done].
  - eexists. split; [by apply verify_view_no_pending; right|].
    split; [left; apply elem_of_app_singleton|done].
  - destruct (decide (uid = 0)) as [->|Hne].
    + eexists. split; [by apply verify_view_no_pending; right|].
      split; [left; apply elem_of_app_singleton|done].
    + eexists. split; [by apply (verify_view_no_account E req uid)|].
      split; [right; apply elem_of_app_singleton|done].
Qed.

Lemma verify_without_pending_account_witness :
  ∃ c',
    verify_view (demo_env true) (anonymous (POST "925814")) ada_returns
    = Some (redirect "signup", c')
    ∧ NoPendingVerification (flashed c')
    ∧ world c' = world ada_returns
    ∧ session c' = session ada_returns.
Proof.
  apply (verify_without_pending_account (demo_env true)
           (anonymous (POST "925814")) ada_returns).
  left. reflexivity.
Defined.

(** X12. [verify_view] always answers, and whatever the request it neither
    adds nor removes an account or a record, sends no mail, draws no random
    number, and leaves address and user name of every account alone. *)
Theorem verify_view_creates_nothing (E : Env) (req : HttpRequest string)
    (c : Ctx) :
  ∃ resp c',
    verify_view E req c = Some (resp, c')
    ∧ dom (users (world c')) = dom (users (world c))
    ∧ dom (verifications (world c')) = dom (verifications (world c))
    ∧ next_verification_id (world c') = next_verification_id (world c)
    ∧ outbox (world c') = outbox (world c)
    ∧ rng_calls (world c') = rng_calls (world c)
    ∧ mail_calls (world c') = mail_calls (world c)
    ∧ ∀ uid u', users (world c') !! uid = Some u' →
                ∃ u, users (world c) !! uid = Some u
                     ∧ email u' = email u ∧ username u' = username u.
Proof.
  assert (∀ c', users (world c') = users (world c) →
                ∀ uid u', users (world c') !! uid = Some u' →
                          ∃ u, users (world c) !! uid = Some u
                               ∧ email u' = email u
                               ∧ username u' = username u) as Hsame.
  { intros c' -> uid u' Hu. by exists u'. }
  destruct (session c !! PENDING) as [uid|] eqn:Hp.
  2:{ eexists _, _. split; [by apply verify_view_no_pending; left|].
      repeat split; try done. by apply Hsame. }
  destruct (decide (uid = 0)) as [->|Hne].
  { eexists _, _. split; [by apply verify_view_no_pending; right|].
    repeat split; try done. by apply Hsame. }
  destruct (users (world c) !! uid) as [u|] eqn:Hu.
  2:{ eexists _, _. split; [by apply (verify_view_no_account E req uid)|].
      repeat split; try done. by apply Hsame. }
  rewrite (verify_view_pending E req uid u c Hp Hne Hu).
  destruct (method req) as [|raw].
  { eexists _, _. split; [done|]. repeat split; try done. by apply Hsame. }
  destruct (VerificationForm_clean raw) as [cd|].
  2:{ eexists _, _. split; [done|]. repeat split; try done. by apply Hsame. }
  destruct (first E _) as [[i r]|] eqn:Hfirst.
  2:{ eexists _, _. split; [done|]. repeat split; try done. by apply Hsame. }
  apply first_filter_Some in Hfirst as (Hi & _).
  case_bool_decide.
  - eexists _, _. split; [done|]. simpl.
    split; [apply dom_insert_lookup_L; by eexists|].
    split; [apply dom_insert_lookup_L; by eexists|].
    repeat split; try done.
    intros k u' [[<- <-]|[_ Hk]]%lookup_insert_Some.
    + by exists u.
    + by exists u'.
  - eexists _, _. split; [done|]. repeat split; try done. by apply Hsame.
Qed.

(** X13. In a reachable state, for a session whose pending identifier names
    the owner of an unused record, submitting that record's code is accepted
    exactly when the clock reads strictly less than the record's expiry: at
    the expiry itself and after it the answer is the message that the code is
    invalid or expired, and the record stays unused. *)
Theorem accepted_iff_before_expiry (E : Env) (st : System) (client : nat)
    (i : Z) (r : EmailVerification) :
  reachable E st →
  session_of client st !! PENDING = Some (user r) →
  verifications (sys_world st) !! i = Some r →
  is_used r = false →
  ∃ resp msgs st',
    handle E client (Verify (POST (code r))) st = Some (resp, msgs, st')
    ∧ (resp = redirect "home"
       ↔ wall_clock E (clock_reads (sys_world st)) < expires_at r)
    ∧ (expires_at r ≤ wall_clock E (clock_reads (sys_world st)) →
       InvalidOrExpiredCode msgs
       ∧ verifications (sys_world st') = verifications (sys_world st)
       ∧ users (sys_world st') = users (sys_world st)).
Proof.
  intros Hwf%reachable_wf Hp Hi Hfree.
  destruct (wf_owner _ Hwf i r Hi) as [u Hu].
  pose proof (wf_user_keys _ Hwf _ u Hu) as Hkey.
  assert (user r ≠ 0) as Hne by lia.
  pose proof (VerificationForm_clean_six_digits (code r)
                (wf_codes _ Hwf i r Hi)) as Hform.
  pose proof (first_own_record E _ i r Hwf Hi Hfree) as Hfirst.
  rewrite handle_verify.
  rewrite (verify_view_pending E _ (user r) u
             (mkCtx (sys_world st) (session_of client st) []) Hp Hne Hu).
  cbn [method world]. rewrite Hform, Hfirst.
  case_bool_decide as Hnow.
  - eexists _, _, _. split; [done|]. split; [done|]. lia.
  - eexists _, _, _. split; [done|]. split.
    + split; [done|lia].
    + intros _. split; [apply elem_of_app_singleton|done].
Qed.

Lemma accepted_iff_before_expiry_witness :
  ∃ resp msgs st',
    handle (demo_env true) 0%nat (Verify (POST (code ada_record)))
      ada_signed_up
    = Some (resp, msgs, st')
    ∧ (resp = redirect "home"
       ↔ wall_clock (demo_env true) (clock_reads (sys_world ada_signed_up))
         < expires_at ada_record)
    ∧ (expires_at ada_record
       ≤ wall_clock (demo_env true) (clock_reads (sys_world ada_signed_up)) →
       InvalidOrExpiredCode msgs
       ∧ verifications (sys_world st') = verifications (sys_world ada_signed_up)
       ∧ users (sys_world st') = users (sys_world ada_signed_up)).
Proof.
  apply (accepted_iff_before_expiry (demo_env true) ada_signed_up 0%nat 1
           ada_record).
  - apply ada_signed_up_reachable.
  - reflexivity.
  - reflexivity.
  - reflexivity.
Defined.

(** ** [login_view], [home_view] and [logout_view] *)




(** ** The application as a whole *)

Lemma demo_authenticate_sound b : authenticate_sound (demo_env b).
Proof.
  intros e p us uid u. simpl.
  destruct (p =? "secret")%string; [|done].
  intros Hhead%head_Some_elem_of.
  apply list_elem_of_filter in Hhead as [_ Hin].
  by apply elem_of_map_to_list in Hin.
Qed.

Lemma get_user_Some w (s : gmap string Z) uid u :
  get_user w s = Some (uid, u) ↔
  s !! SESSION_KEY = Some uid ∧ users w !! uid = Some u ∧ is_active u = true.
Proof.
  unfold get_user. split.
  - destruct (s !! SESSION_KEY) as [k|]; [|done].
    destruct (users w !! k) as [x|] eqn:Hk; [|done].
    destruct (is_active x) eqn:Ha; [|done].
    intros [= <- <-]. done.
  - intros (-> & -> & ->). done.
Qed.

(** X16. In a reachable state the home page is rendered only for a session
    that is signed in as a stored account that is active and verified; every
    other request for it is redirected to the login page; either way the
    database and the session are left as they were. *)
Theorem home_served_only_to_verified (E : Env) (st : System) (client : nat) :
  reachable E st →
  ∃ resp msgs st',
    handle E client Home st = Some (resp, msgs, st')
    ∧ sys_world st' = sys_world st
    ∧ session_of client st' = session_of client st
    ∧ (resp = render "home.html" false ∨ resp = redirect "login")
    ∧ (resp = render "home.html" false →
       ∃ uid u, session_of client st !! SESSION_KEY = Some uid
                ∧ users (sys_world st) !! uid = Some u
                ∧ is_active u = true ∧ is_verified u = true).
Proof.
  intros Hwf%reachable_wf.
  unfold handle, dispatch, home_view, login_required, is_authenticated.
  cbn [request_user].
  destruct (get_user (sys_world st) (session_of client st)) as [[uid u]|]
    eqn:Hget.
  - rewrite bool_decide_true by by eexists.
    eexists _, _, _. split; [reflexivity|].
    split; [done|]. split; [apply session_of_handled|].
    split; [by left|]. intros _.
    apply get_user_Some in Hget as (Hk & Hu & Ha).
    exists uid, u. repeat split; try done.
    by rewrite <- (wf_flags _ Hwf uid u Hu).
  - rewrite bool_decide_false by (by intros [? ?]).
    eexists _, _, _. split; [reflexivity|].
    split; [done|]. split; [apply session_of_handled|].
    split; [by right|]. done.
Qed.

Lemma home_served_only_to_verified_witness :
  ∃ resp msgs st',
    handle (demo_env true) 0%nat Home ada_verified = Some (resp, msgs, st')
    ∧ sys_world st' = sys_world ada_verified
    ∧ session_of 0%nat st' = session_of 0%nat ada_verified
    ∧ (resp = render "home.html" false ∨ resp = redirect "login")
    ∧ (resp = render "home.html" false →
       ∃ uid u, session_of 0%nat ada_verified !! SESSION_KEY = Some uid
                ∧ users (sys_world ada_verified) !! uid = Some u
                ∧ is_active u = true ∧ is_verified u = true).
Proof.
  apply (home_served_only_to_verified (demo_env true) ada_verified 0%nat).
  eapply rtc_r; [apply ada_signed_up_reachable|apply ada_verified_step].
Defined.

(** X17. Right after a code was accepted, the home page is rendered for that
    client: the account [verify_view] has just activated is the one the
    middleware finds for the session [login] has just written. *)
Theorem verified_then_home (E : Env) (st : System) (client : nat) (i : Z)
    (r : EmailVerification) :
  reachable E st →
  session_of client st !! PENDING = Some (user r) →
  verifications (sys_world st) !! i = Some r →
  is_used r = false →
  wall_clock E (clock_reads (sys_world st)) < expires_at r →
  ∃ msgs st' msgs2 st2,
    handle E client (Verify (POST (code r))) st
    = Some (redirect "home", msgs, st')
    ∧ handle E client Home st' = Some (render "home.html" false, msgs2, st2)
    ∧ sys_world st2 = sys_world st'.
Proof.
  intros Hwf%reachable_wf Hp Hi Hfree Hnow.
  destruct (wf_owner _ Hwf i r Hi) as [u Hu].
  pose proof (wf_user_keys _ Hwf _ u Hu) as Hkey.
  assert (user r ≠ 0) as Hne by lia.
  pose proof (VerificationForm_clean_six_digits (code r)
                (wf_codes _ Hwf i r Hi)) as Hform.
  pose proof (first_own_record E _ i r Hwf Hi Hfree) as Hfirst.
  set (c := mkCtx (sys_world st) (session_of client st) []).
  set (c' := verified (user r) i u r c).
  set (st' := mkSystem (world c') (<[client := session c']> (sessions st))).
  assert (get_user (sys_world st') (session_of client st')
          = Some (user r, activate u)) as Hget.
  { apply get_user_Some. split; [|split; [|done]].
    - unfold st'. rewrite session_of_handled. apply logged_in_key.
    - apply lookup_insert_eq. }
  exists (flashed c'), st'. eexists _, _. split; [|split].
  - rewrite handle_verify. fold c.
    rewrite (verify_view_pending E _ (user r) u c Hp Hne Hu).
    cbn [method]. rewrite Hform.
    change (verifications (world c)) with (verifications (sys_world st)).
    rewrite Hfirst. by rewrite bool_decide_true.
  - unfold handle, dispatch, home_view, login_required, is_authenticated.
    cbn [request_user]. rewrite Hget.
    rewrite bool_decide_true by by eexists. reflexivity.
  - done.
Qed.

Lemma verified_then_home_witness :
  ∃ msgs st' msgs2 st2,
    handle (demo_env true) 0%nat (Verify (POST (code ada_record)))
      ada_signed_up
    = Some (redirect "home", msgs, st')
    ∧ handle (demo_env true) 0%nat Home st'
      = Some (render "home.html" false, msgs2, st2)
    ∧ sys_world st2 = sys_world st'.
Proof.
  apply (verified_then_home (demo_env true) ada_signed_up 0%nat 1 ada_record).
  - apply ada_signed_up_reachable.
  - reflexivity.
  - reflexivity.
  - reflexivity.
  - reflexivity.
Defined.

(** X18. Logging out a signed-in session empties the session altogether, a
    pending identifier included, and leaves the database alone; the next
    request of that client for the home page is redirected to the login page
    and its next verify request is turned away for want of a pending
    verification. *)
Theorem logout_then_home_redirects (E : Env) (st : System) (client : nat)
    (ru : Z * User) (m : Method string) :
  get_user (sys_world st) (session_of client st) = Some ru →
  ∃ msgs st',
    handle E client Logout st = Some (redirect "login", msgs, st')
    ∧ signalled info "You have been logged out." msgs
    ∧ session_of client st' = ∅
    ∧ sys_world st' = sys_world st
    ∧ (∃ st2, handle E client Home st' = Some (redirect "login", [], st2))
    ∧ (∃ msgs2 st2,
         handle E client (Verify m) st' = Some (redirect "signup", msgs2, st2)
         ∧ NoPendingVerification msgs2).
Proof.
  intros Hget.
  set (st' := mkSystem (sys_world st) (<[client := ∅]> (sessions st))).
  assert (session_of client st' = ∅) as Hs by apply session_of_handled.
  exists [(info, "You have been logged out.")], st'.
  split; [|split; [|split; [|split; [|split]]]].
  - unfold handle, dispatch, logout_view, login_required, is_authenticated.
    cbn [request_user]. rewrite Hget.
    rewrite bool_decide_true by by eexists. reflexivity.
  - apply list_elem_of_singleton. done.
  - done.
  - done.
  - eexists.
    unfold handle, dispatch, home_view, login_required, is_authenticated.
    cbn [request_user]. rewrite Hs.
    change (get_user (sys_world st') ∅) with (@None (Z * User)).
    rewrite bool_decide_false by (by intros [? ?]). reflexivity.
  - eexists _, _. split.
    + rewrite handle_verify, Hs.
      rewrite verify_view_no_pending by (by left). reflexivity.
    + left. apply elem_of_app_singleton.
Qed.

Lemma logout_then_home_redirects_witness :
  ∃ msgs st',
    handle (demo_env true) 0%nat Logout ada_verified
    = Some (redirect "login", msgs, st')
    ∧ signalled info "You have been logged out." msgs
    ∧ session_of 0%nat st' = ∅
    ∧ sys_world st' = sys_world ada_verified
    ∧ (∃ st2, handle (demo_env true) 0%nat Home st'
              = Some (redirect "login", [], st2))
    ∧ (∃ msgs2 st2,
         handle (demo_env true) 0%nat (Verify (POST "925814")) st'
         = Some (redirect "signup", msgs2, st2)
         ∧ NoPendingVerification msgs2).
Proof.
  apply (logout_then_home_redirects (demo_env true) ada_verified 0%nat
           (1, activate ada) (POST "925814")).
  reflexivity.
Defined.

(** ** What every reachable state satisfies *)

(** X19. Once a request has ended, the accounts it leaves stored are never
    deleted or renamed: from a reachable state on, through any sequence of
    requests, an account keeps its key, its address and its user name, and an
    account that is verified stays verified and active. *)
Theorem accounts_persist (E : Env) (st st' : System) (uid : Z) (u : User) :
  reachable E st →
  rtc (step E) st st' →
  users (sys_world st) !! uid = Some u →
  ∃ u',
    users (sys_world st') !! uid = Some u'
    ∧ email u' = email u
    ∧ username u' = username u
    ∧ (is_verified u = true → is_verified u' = true ∧ is_active u' = true).
Proof.
  intros Hwf%reachable_wf Hsteps Hu.
  destruct (steps_keep_account E st st' uid u Hwf Hsteps Hu)
    as (u' & Hu' & He & Hn & Hv).
  exists u'. repeat split; try done; [by apply Hv|].
  rewrite (wf_flags _ (steps_wf E _ _ Hwf Hsteps) uid u' Hu'). by apply Hv.
Qed.

Lemma accounts_persist_witness :
  ∃ u',
    users (sys_world ada_verified) !! 1 = Some u'
    ∧ email u' = email ada
    ∧ username u' = username ada
    ∧ (is_verified ada = true → is_verified u' = true ∧ is_active u' = true).
Proof.
  apply (accounts_persist (demo_env true) ada_signed_up ada_verified 1 ada).
  - apply ada_signed_up_reachable.
  - apply rtc_once, ada_verified_step.
  - reflexivity.
Defined.

(** X20. In every reachable state each account has exactly one verification
    record (no view issues a second one), and that record is used exactly
    when the account is verified. *)
Theorem one_record_per_account (E : Env) (st : System) (uid : Z) (u : User) :
  reachable E st →
  users (sys_world st) !! uid = Some u →
  ∃ i r,
    verifications (sys_world st) !! i = Some r
    ∧ user r = uid
    ∧ (∀ j r', verifications (sys_world st) !! j = Some r' →
               user r' = uid → j = i ∧ r' = r)
    ∧ is_used r = is_verified u.
Proof.
  intros Hreach Hu.
  pose proof (reachable_wf E st Hreach) as Hwf.
  pose proof (reachable_consistent E st Hreach) as Hcons.
  destruct (has_record _ Hcons uid u Hu) as (i & r & Hi & Hr).
  exists i, r. repeat split; try done.
  - apply (wf_single _ Hwf j i r' r); congruence.
  - assert (j = i) as -> by (apply (wf_single _ Hwf j i r' r); congruence).
    congruence.
  - apply (used_iff_verified _ Hcons i r u Hi). by rewrite Hr.
Qed.

Lemma one_record_per_account_witness :
  ∃ i r,
    verifications (sys_world ada_signed_up) !! i = Some r
    ∧ user r = 1
    ∧ (∀ j r', verifications (sys_world ada_signed_up) !! j = Some r' →
               user r' = 1 → j = i ∧ r' = r)
    ∧ is_used r = is_verified ada.
Proof.
  apply (one_record_per_account (demo_env true) ada_signed_up 1 ada).
  - apply ada_signed_up_reachable.
  - reflexivity.
Defined.

(** X21. In every reachable state no two accounts have the same address. *)
Theorem emails_unique (E : Env) (st : System) (i j : Z) (u u' : User) :
  reachable E st →
  users (sys_world st) !! i = Some u →
  users (sys_world st) !! j = Some u' →
  email u = email u' →
  i = j.
Proof.
  intros Hcons%reachable_consistent. apply (unique_emails _ Hcons).
Qed.

Lemma emails_unique_witness : (1 : Z) = 1.
Proof.
  apply (emails_unique (demo_env true) ada_signed_up 1 1 ada ada).
  - apply ada_signed_up_reachable.
  - reflexivity.
  - reflexivity.
  - reflexivity.
Defined.

(** X22. In every reachable state every mail that was handed to the transport
    carries the address of a stored account and the code of that account's
    record, a code of six digits, under the subject of the sign-up mail: no
    mail is left over from a sign-up that was rolled back, and no view other
    than a sign-up sends one. *)
Theorem mails_carry_stored_codes (E : Env) (st : System) (m : Mail) :
  reachable E st →
  m ∈ outbox (sys_world st) →
  ∃ uid u i r,
    users (sys_world st) !! uid = Some u
    ∧ email u = mail_to m
    ∧ verifications (sys_world st) !! i = Some r
    ∧ user r = uid
    ∧ code r = mail_code m
    ∧ six_digits (mail_code m).
Proof.
  intros Hreach Hm.
  pose proof (reachable_wf E st Hreach) as Hwf.
  pose proof (reachable_consistent E st Hreach) as Hcons.
  destruct (mails_match _ Hcons m Hm) as (uid & u & i & r & ? & ? & Hi & ? & Hc).
  exists uid, u, i, r. repeat split; try done.
  - rewrite <- Hc. apply (wf_codes _ Hwf i r Hi).
  - rewrite <- Hc. apply (wf_codes _ Hwf i r Hi).
Qed.

Lemma mails_carry_stored_codes_witness :
  ∃ uid u i r,
    users (sys_world ada_signed_up) !! uid = Some u
    ∧ email u = mail_to (signup_mail ada_post "925814")
    ∧ verifications (sys_world ada_signed_up) !! i = Some r
    ∧ user r = uid
    ∧ code r = mail_code (signup_mail ada_post "925814")
    ∧ six_digits (mail_code (signup_mail ada_post "925814")).
Proof.
  apply (mails_carry_stored_codes (demo_env true) ada_signed_up
           (signup_mail ada_post "925814")).
  - apply ada_signed_up_reachable.
  - apply list_elem_of_singleton. reflexivity.
Defined.

Lemma reachable_session_ok (E : Env) (st : System) (client : nat) :
  authenticate_sound E → reachable E st →
  session_ok (sys_world st) (session_of client st).
Proof.
  intros Hsound Hreach.
  pose proof (reachable_sessions_sound E st Hsound Hreach) as Hss.
  unfold session_of.
  destruct (sessions st !! client) as [s|] eqn:Hs; simpl.
  - by apply (Hss client).
  - apply session_ok_empty.
Qed.

Lemma reachable_pending_stored (E : Env) (st : System) (client : nat)
    (uid : Z) :
  authenticate_sound E → reachable E st →
  session_of client st !! PENDING = Some uid →
  uid ≠ 0 ∧ is_Some (users (sys_world st) !! uid).
Proof.
  intros Hsound Hreach Hp.
  destruct (reachable_session_ok E st client Hsound Hreach uid) as [_ Hpend].
  destruct (Hpend Hp) as [u Hu]. split; [|by eexists].
  pose proof (wf_user_keys _ (reachable_wf E st Hreach) uid u Hu). lia.
Qed.

(** X23. When the credential check returns rows of the table, in every
    reachable state a session is signed in only as a stored account that is
    verified, and a pending identifier always names a stored account. *)
Theorem sessions_name_stored_accounts (E : Env) (st : System) (client : nat)
    (uid : Z) :
  authenticate_sound E →
  reachable E st →
  (session_of client st !! SESSION_KEY = Some uid →
   ∃ u, users (sys_world st) !! uid = Some u
        ∧ is_verified u = true ∧ is_active u = true)
  ∧ (session_of client st !! PENDING = Some uid →
     uid ≠ 0 ∧ is_Some (users (sys_world st) !! uid)).
Proof.
  intros Hsound Hreach.
  pose proof (reachable_wf E st Hreach) as Hwf.
  destruct (reachable_session_ok E st client Hsound Hreach uid) as [Hkey _].
  split.
  - intros (u & Hu & Hv)%Hkey. exists u. repeat split; try done.
    by rewrite (wf_flags _ Hwf uid u Hu).
  - by apply (reachable_pending_stored E).
Qed.

Lemma sessions_name_stored_accounts_witness :
  (session_of 0%nat ada_verified !! SESSION_KEY = Some 1 →
   ∃ u, users (sys_world ada_verified) !! 1 = Some u
        ∧ is_verified u = true ∧ is_active u = true)
  ∧ (session_of 0%nat ada_verified !! PENDING = Some 1 →
     (1 : Z) ≠ 0 ∧ is_Some (users (sys_world ada_verified) !! 1)).
Proof.
  apply (sessions_name_stored_accounts (demo_env true) ada_verified 0%nat 1).
  - apply demo_authenticate_sound.
  - eapply rtc_r; [apply ada_signed_up_reachable|apply ada_verified_step].
Defined.

(** X24. When the credential check returns rows of the table, the branch of
    [verify_view] for a pending identifier without account is never taken in
    a reachable state: no verify request is answered with "Invalid
    verification session.". *)
Theorem no_dangling_pending (E : Env) (st : System) (client : nat)
    (m : Method string) :
  authenticate_sound E →
  reachable E st →
  ∃ resp msgs st',
    handle E client (Verify m) st = Some (resp, msgs, st')
    ∧ ¬ signalled error "Invalid verification session." msgs.
Proof.
  intros Hsound Hreach.
  rewrite handle_verify.
  set (c := mkCtx (sys_world st) (session_of client st) []).
  destruct (session c !! PENDING) as [uid|] eqn:Hp.
  2:{ rewrite verify_view_no_pending by (by left).
      eexists _, _, _. split; [done|]. simpl.
      intros Hin%list_elem_of_singleton. discriminate Hin. }
  destruct (reachable_pending_stored E st client uid Hsound Hreach Hp)
    as [Hne [u Hu]].
  rewrite (verify_view_pending E _ uid u c Hp Hne Hu).
  destruct m as [|raw]; cbn [method].
  { eexists _, _, _. split; [done|]. apply not_elem_of_nil. }
  destruct (VerificationForm_clean raw) as [cd|].
  2:{ eexists _, _, _. split; [done|]. apply not_elem_of_nil. }
  destruct (first E _) as [[i r]|].
  2:{ eexists _, _, _. split; [done|]. simpl.
      intros Hin%list_elem_of_singleton. discriminate Hin. }
  case_bool_decide.
  - eexists _, _, _. split; [done|]. simpl.
    intros Hin%list_elem_of_singleton. discriminate Hin.
  - eexists _, _, _. split; [done|]. simpl.
    intros Hin%list_elem_of_singleton. discriminate Hin.
Qed.

Lemma no_dangling_pending_witness :
  ∃ resp msgs st',
    handle (demo_env true) 0%nat (Verify (POST "000000")) ada_signed_up
    = Some (resp, msgs, st')
    ∧ ¬ signalled error "Invalid verification session." msgs.
Proof.
  apply (no_dangling_pending (demo_env true) ada_signed_up 0%nat
           (POST "000000")).
  - apply demo_authenticate_sound.
  - apply ada_signed_up_reachable.
Defined.

Lemma SignUpForm_clean_taken (E : Env) (data : SignUpPost)
    (us : gmap Z User) :
  email_taken (Py.strip (post_email data)) us →
  SignUpForm_clean E data us = None.
Proof.
  intros Htaken. unfold SignUpForm_clean.
  destruct (_ =? "")%string; [done|].
  case_bool_decide; [done|].
  destruct (clean_email_result (Py.strip (post_email data)))
    as [[err ->]| ->]; [done|].
  by rewrite bool_decide_true.
Qed.

(** X25. An address that has an account cannot be registered again: from a
    reachable state in which an account is stored, after any sequence of
    requests, a sign-up whose trimmed address is that account's address is
    answered with the form and its errors (or, from a signed-in session, with
    a redirect to the home page) and changes neither the database nor the
    session. *)
Theorem registered_address_refused (E : Env) (st st' : System) (client : nat)
    (data : SignUpPost) (uid : Z) (u : User) :
  reachable E st →
  users (sys_world st) !! uid = Some u →
  rtc (step E) st st' →
  Py.strip (post_email data) = email u →
  ∃ resp msgs st2,
    handle E client (Signup (POST data)) st' = Some (resp, msgs, st2)
    ∧ (resp = redirect "home"
       ∨ resp = render "authentication/signup.html" true)
    ∧ msgs = []
    ∧ sys_world st2 = sys_world st'
    ∧ session_of client st2 = session_of client st'.
Proof.
  intros Hwf%reachable_wf Hu Hsteps He.
  destruct (steps_keep_account E st st' uid u Hwf Hsteps Hu)
    as (u' & Hu' & He' & _).
  assert (SignUpForm_clean E data (users (sys_world st')) = None) as Hform.
  { apply SignUpForm_clean_taken. exists uid, u'. split; [done|]. congruence. }
  unfold handle, dispatch, signup_view, is_authenticated.
  cbn [request_user method].
  case_bool_decide.
  - eexists _, _, _. split; [reflexivity|]. split; [by left|].
    split; [done|]. split; [done|]. apply session_of_handled.
  - run. rewrite Hform.
    eexists _, _, _. split; [reflexivity|]. split; [by right|].
    split; [done|]. split; [done|]. apply session_of_handled.
Qed.

Lemma registered_address_refused_witness :
  ∃ resp msgs st2,
    handle (demo_env true) 7%nat (Signup (POST ada_post)) ada_verified
    = Some (resp, msgs, st2)
    ∧ (resp = redirect "home"
       ∨ resp = render "authentication/signup.html" true)
    ∧ msgs = []
    ∧ sys_world st2 = sys_world ada_verified
    ∧ session_of 7%nat st2 = session_of 7%nat ada_verified.
Proof.
  apply (registered_address_refused (demo_env true) ada_signed_up ada_verified
           7%nat ada_post 1 ada).
  - apply ada_signed_up_reachable.
  - reflexivity.
  - apply rtc_once, ada_verified_step.
  - reflexivity.
Defined.

(** X26. After a sign-up whose mail failed, the database holds the accounts,
    records and mails it held before, so the same form validates again and
    the user can retry; only the two key counters have moved on by one: the
    keys of the deleted account and record are not given out again. *)
Theorem retry_after_mail_failure (E : Env) (st : System) (client : nat)
    (data cleaned : SignUpPost) :
  reachable E st →
  get_user (sys_world st) (session_of client st) = None →
  SignUpForm_clean E data (users (sys_world st)) = Some cleaned →
  smtp E (mail_calls (sys_world st)) = false →
  ∃ msgs st',
    handle E client (Signup (POST data)) st
    = Some (render "authentication/signup.html" false, msgs, st')
    ∧ MailSendFailed msgs
    ∧ users (sys_world st') = users (sys_world st)
    ∧ verifications (sys_world st') = verifications (sys_world st)
    ∧ outbox (sys_world st') = outbox (sys_world st)
    ∧ next_user_id (sys_world st') = next_user_id (sys_world st) + 1
    ∧ next_verification_id (sys_world st')
      = next_verification_id (sys_world st) + 1
    ∧ session_of client st' = session_of client st
    ∧ SignUpForm_clean E data (users (sys_world st')) = Some cleaned.
Proof.
  intros Hwf%reachable_wf Hget Hform Hsmtp.
  set (c := mkCtx (sys_world st) (session_of client st) []).
  destruct (signup_view_valid E (mkRequest (POST data) None) data cleaned c
              eq_refl eq_refl Hform) as (s & Hs & Hview).
  cbv zeta in Hview. cbn [world c] in Hview. rewrite Hsmtp in Hview.
  assert (users (world (rolled_back (next_user_id (sys_world st))
                          (issued E (next_user_id (sys_world st)) s
                             (enrolled cleaned c))))
          = users (sys_world st)) as Husers.
  { simpl. apply delete_insert_id, wf_fresh_user, Hwf. }
  eexists _, _. split.
  - unfold handle, dispatch. rewrite Hget. fold c. rewrite Hview. reflexivity.
  - split; [apply elem_of_app_singleton|].
    split; [exact Husers|].
    split; [simpl; by apply (rollback_records (sys_world st))|].
    split; [done|]. split; [done|]. split; [done|].
    split; [apply session_of_handled|].
    cbn [sys_world]. by rewrite Husers.
Qed.

Lemma retry_after_mail_failure_witness :
  ∃ msgs st',
    handle (demo_env false) 0%nat (Signup (POST ada_post)) init
    = Some (render "authentication/signup.html" false, msgs, st')
    ∧ MailSendFailed msgs
    ∧ users (sys_world st') = users (sys_world init)
    ∧ verifications (sys_world st') = verifications (sys_world init)
    ∧ outbox (sys_world st') = outbox (sys_world init)
    ∧ next_user_id (sys_world st') = next_user_id (sys_world init) + 1
    ∧ next_verification_id (sys_world st')
      = next_verification_id (sys_world init) + 1
    ∧ session_of 0%nat st' = session_of 0%nat init
    ∧ SignUpForm_clean (demo_env false) ada_post (users (sys_world st'))
      = Some ada_post.
Proof.
  apply (retry_after_mail_failure (demo_env false) init 0%nat ada_post
           ada_post).
  - apply rtc_refl.
  - reflexivity.
  - vm_compute. reflexivity.
  - reflexivity.
Defined.
